(** * basic_cleaning: the data-cleaning step of the ML pipeline

    A shallow embedding of [src/basic_cleaning/run.py].  The step downloads
    a table, keeps the rows whose price lies between two bounds, converts
    the [last_review] column to timestamps, keeps the rows inside a fixed
    geographic box, writes the result as CSV and logs it as a new artifact.

    The pandas operations the script calls ([Series.between], boolean
    indexing, [pd.to_datetime], [DataFrame.to_csv]) are written out on a
    table kept as an ordered list of labelled records; the tracking service
    and the file system are threaded through a state-and-exception monad. *)

From Stdlib Require Import Floats ZArith Ascii String.
From stdpp Require Import base option list gmap strings.

Local Open Scope string_scope.

(* 41.2 is read as the nearest binary64 number, 0x1.499999999999ap+5, as
   Python reads it. *)
Set Warnings "-inexact-float".

(** ** Exceptions

    The script catches nothing: an exception raised by any call ends the
    run.  A computation that may raise returns a [result]. *)

Inductive exn :=
  | KeyError (key : string)         (* a column the frame does not have *)
  | TypeError                       (* a text or date cell against a float *)
  | DateParseError (text : string)  (* a string [pd.to_datetime] cannot read *)
  | OutOfBoundsDatetime             (* a number outside the timestamp range *)
  | ValueError (what : string)      (* a name [wandb.Artifact] rejects *)
  | CommError (name : string)       (* the tracking service refused a call *)
  | ParserError (path : string)     (* [pd.read_csv] could not read the file *)
  | FileNotFoundError (path : string)
  | OSError (path : string).

Inductive result (A : Type) :=
  | Ok (a : A)
  | Raise (e : exn).
Arguments Ok {A} a.
Arguments Raise {A} e.

#[global] Instance result_ret : MRet result := @Ok.
#[global] Instance result_bind : MBind result := fun A B f m =>
  match m with
  | Ok a => f a
  | Raise e => Raise e
  end.

(** ** Tables

    A cell read from CSV is an integer (an [int64] column), a float (a
    [float64] column, a missing entry being NaN) or a string;
    [pd.to_datetime] produces timestamps, kept as nanoseconds since the
    epoch, and [NaT]. *)

Inductive value :=
  | Int (n : Z)
  | Num (x : float)
  | Str (s : string)
  | Timestamp (ns : Z)
  | NaT.

Definition NaN : value := Num nan.

(** An [int64] compared with a Python float is first converted to
    [float64], to the nearest number, ties to even: above 2^53 the
    conversion rounds. *)
Definition float_of_int (n : Z) : float :=
  SF2Prim (binary_normalize prec emax n 0 false).

(** The binary64 number a numeric cell is compared as. *)
Definition as_float (v : value) : option float :=
  match v with
  | Int n => Some (float_of_int n)
  | Num x => Some x
  | Str _ | Timestamp _ | NaT => None
  end.

Abbreviation record := (gmap string value).
Abbreviation Series := (list value).

(** A frame is its header and its rows in order, each row carrying its
    index label.  A record without an entry for a column is missing there,
    which is how pandas fills records and how [read_csv] pads short lines. *)
Record DataFrame := {
  columns : list string;
  rows : list (Z * record)
}.

Definition cell (r : record) (c : string) : value := default NaN (r !! c).

(** [data_frame[c]] *)
Definition getitem (data_frame : DataFrame) (c : string) : result Series :=
  if decide (c ∈ columns data_frame)
  then Ok (map (fun r => cell r.2 c) (rows data_frame))
  else Raise (KeyError c).

(** One cell against a float that is not NaN: a number is compared as
    binary64, NaN comparing false; a string or a date against a float is a
    [TypeError]. *)
Definition ge_scalar (left : float) (v : value) : result bool :=
  match v with
  | Int n => Ok (left <=? float_of_int n)%float
  | Num x => Ok (left <=? x)%float
  | Str _ | Timestamp _ | NaT => Raise TypeError
  end.

Definition le_scalar (right : float) (v : value) : result bool :=
  match v with
  | Int n => Ok (float_of_int n <=? right)%float
  | Num x => Ok (x <=? right)%float
  | Str _ | Timestamp _ | NaT => Raise TypeError
  end.

(** [series >= left] and [series <= right].  A NaN on the right of a
    comparison is answered [False] for every row before any cell is looked
    at, so that no cell can raise. *)
Definition series_ge (s : Series) (left : float) : result (list bool) :=
  if is_nan left then Ok (map (fun _ => false) s)
  else mapM (ge_scalar left) s.

Definition series_le (s : Series) (right : float) : result (list bool) :=
  if is_nan right then Ok (map (fun _ => false) s)
  else mapM (le_scalar right) s.

(** [mask & mask] *)
Definition mask_and (lmask rmask : list bool) : list bool :=
  zip_with andb lmask rmask.

(** [Series.between(left, right)], inclusive on both sides:
    [lmask = self >= left; rmask = self <= right; return lmask & rmask]. *)
Definition between (s : Series) (left right : float) : result (list bool) :=
  lmask ← series_ge s left;
  rmask ← series_le s right;
  mret (mask_and lmask rmask).

(** [xs[mask]]: the entries whose mask is [True], in order. *)
Fixpoint select {A : Type} (mask : list bool) (xs : list A) : list A :=
  match mask, xs with
  | b :: mask', x :: xs' =>
      if b then x :: select mask' xs' else select mask' xs'
  | _, _ => []
  end.

(** [data_frame[idx]], boolean indexing: labels and cells of the selected
    rows are kept as they are. *)
Definition loc (data_frame : DataFrame) (idx : list bool) : DataFrame :=
  {| columns := columns data_frame;
     rows := select idx (rows data_frame) |}.

(** [.copy()] detaches the selection from the frame it was taken from;
    frames are values here. *)
Definition copy (data_frame : DataFrame) : DataFrame := data_frame.

(** [data_frame[c] = series]: the column is replaced row by row, and is
    appended to the header when it is new. *)
Definition setitem (data_frame : DataFrame) (c : string) (s : Series)
  : DataFrame :=
  {| columns := if decide (c ∈ columns data_frame)
                then columns data_frame
                else columns data_frame ++ [c];
     rows := zip_with (fun r v => (r.1, <[c := v]> r.2))
                      (rows data_frame) s |}.

(** A date as [pd.to_datetime] returns it: a timestamp or the null
    [NaT]. *)
Definition datetime (t : option Z) : value :=
  match t with
  | Some ns => Timestamp ns
  | None => NaT
  end.

Section Pandas.

(** What pandas makes of one string (a date, the null for spellings such
    as "NaT", or an exception) and of one number read as a time since the
    epoch (a date, the null, or an exception) is left to the library. *)
Context (parse_datetime : string -> result (option Z)).
Context (from_epoch : value -> result (option Z)).

(** [pd.to_datetime] on one cell with the default [errors="raise"]. *)
Definition to_datetime_scalar (v : value) : result value :=
  match v with
  | Str s => t ← parse_datetime s; mret (datetime t)
  | Int n => t ← from_epoch (Int n); mret (datetime t)
  | Num x =>
      if is_nan x then Ok NaT
      else t ← from_epoch (Num x); mret (datetime t)
  | Timestamp ns => Ok (Timestamp ns)
  | NaT => Ok NaT
  end.

Definition to_datetime (s : Series) : result Series :=
  mapM to_datetime_scalar s.

(** Lines 41-42. *)
Definition price_filter (min_price max_price : float)
    (data_frame : DataFrame) : result DataFrame :=
  idx ← getitem data_frame "price" ≫=
        (fun s => between s min_price max_price);
  mret (copy (loc data_frame idx)).

(** Line 44. *)
Definition convert_last_review (data_frame : DataFrame)
  : result DataFrame :=
  last_review ← getitem data_frame "last_review" ≫= to_datetime;
  mret (setitem data_frame "last_review" last_review).

(** Lines 46-47. *)
Definition bbox_filter (data_frame : DataFrame) : result DataFrame :=
  lon ← getitem data_frame "longitude" ≫=
        (fun s => between s (-74.25) (-73.50));
  lat ← getitem data_frame "latitude" ≫=
        (fun s => between s 40.5 41.2);
  let idx := mask_and lon lat in
  mret (copy (loc data_frame idx)).

(** Lines 39-47 of [go_function]: the table that is written out. *)
Definition clean (min_price max_price : float) (data_frame : DataFrame)
  : result DataFrame :=
  data_frame ← price_filter min_price max_price data_frame;
  data_frame ← convert_last_review data_frame;
  bbox_filter data_frame.

End Pandas.

(** The two row filters without the conversion between them. *)
Definition combined_filter (min_price max_price : float)
    (data_frame : DataFrame) : result DataFrame :=
  price_filter min_price max_price data_frame ≫= bbox_filter.

(** ** Files

    A CSV file is kept as its lines, each line as its fields. *)

Abbreviation csv := (list (list string)).

Section ToCsv.

(** How a cell and an index label are printed is pandas' business. *)
Context (repr : value -> string).
Context (repr_label : Z -> string).

Definition csv_header (data_frame : DataFrame) (index : bool)
  : list string :=
  (if index then [""] else []) ++ columns data_frame.

Definition csv_line (data_frame : DataFrame) (index : bool)
    (r : Z * record) : list string :=
  (if index then [repr_label r.1] else []) ++
  map (fun c => repr (cell r.2 c)) (columns data_frame).

(** [DataFrame.to_csv]: both [header] and [index] default to [True]. *)
Definition to_csv (data_frame : DataFrame) (header index : bool) : csv :=
  (if header then [csv_header data_frame index] else []) ++
  map (csv_line data_frame index) (rows data_frame).

End ToCsv.

(** ** The tracking service and the file system *)

Module wandb.

Record Artifact := {
  name : string;
  type : string;
  description : string;
  files : list (string * csv)
}.

End wandb.

(** The state a run acts on: the files the script itself names (the
    downloaded input and the output file, among whatever else is in the
    working directory), and the artifacts the service has registered,
    newest first.  What the tracking client keeps for itself on the disk
    (its run directory, its staging area, its cache) is its own state and
    is not part of [disk]. *)
Record world := {
  disk : gmap string csv;
  logged : list wandb.Artifact
}.

(** The behaviour of the collaborators during one run. *)
Record backend := {
  (** [wandb.init] and [run.config.update] *)
  init : result unit;
  (** [run.use_artifact(name).file()]: the local path and what was
      downloaded there *)
  use_artifact : string -> result (string * csv);
  (** [pd.read_csv] on the content of a file *)
  parse_csv : csv -> result DataFrame;
  parse_datetime : string -> result (option Z);
  from_epoch : value -> result (option Z);
  repr : value -> string;
  repr_label : Z -> string;
  (** whether a file can be created at a path *)
  writable : string -> bool;
  (** whether [wandb.Artifact] accepts a name and a type *)
  valid_artifact : string -> string -> bool;
  (** whether the service accepts an artifact *)
  upload : wandb.Artifact -> bool
}.

Record Args := {
  input_artifact : string;
  output_artifact : string;
  output_type : string;
  output_description : string;
  min_price : float;
  max_price : float
}.

(** Computations that act on the world and may raise; what was done before
    an exception stays done. *)
Definition IO (A : Type) : Type := world -> result A * world.

#[global] Instance IO_ret : MRet IO := fun A a w => (Ok a, w).
#[global] Instance IO_bind : MBind IO := fun A B f m w =>
  match m w with
  | (Ok a, w') => f a w'
  | (Raise e, w') => (Raise e, w')
  end.

Definition lift {A : Type} (r : result A) : IO A := fun w => (r, w).

Definition write_file (path : string) (content : csv) : IO unit := fun w =>
  (Ok (), {| disk := <[path := content]> (disk w); logged := logged w |}).

Section Run.

Context (B : backend).

(** Lines 32-33. *)
Definition artifact_file (name : string) : IO string :=
  '(path, content) ← lift (use_artifact B name);
  write_file path content;;
  mret path.

(** Line 36. *)
Definition read_csv (path : string) : IO DataFrame := fun w =>
  match disk w !! path with
  | Some content => (parse_csv B content, w)
  | None => (Raise (FileNotFoundError path), w)
  end.

(** Line 51. *)
Definition to_csv_file (data_frame : DataFrame) (path : string)
    (index : bool) : IO unit :=
  if writable B path
  then write_file path (to_csv (repr B) (repr_label B) data_frame true index)
  else lift (Raise (OSError path)).

(** Lines 53-57: the constructor checks the name and the type it is
    given and raises [ValueError] on one it rejects. *)
Definition Artifact (name type description : string)
  : result wandb.Artifact :=
  if valid_artifact B name type
  then Ok {| wandb.name := name;
             wandb.type := type;
             wandb.description := description;
             wandb.files := [] |}
  else Raise (ValueError name).

(** Line 58. *)
Definition add_file (artifact : wandb.Artifact) (path : string)
  : IO wandb.Artifact := fun w =>
  match disk w !! path with
  | Some content =>
      (Ok {| wandb.name := wandb.name artifact;
             wandb.type := wandb.type artifact;
             wandb.description := wandb.description artifact;
             wandb.files := wandb.files artifact ++ [(path, content)] |}, w)
  | None => (Raise (FileNotFoundError path), w)
  end.

(** Line 61: the artifact is registered, or the call raises and nothing
    is. *)
Definition log_artifact (artifact : wandb.Artifact) : IO unit := fun w =>
  if upload B artifact
  then (Ok (), {| disk := disk w; logged := artifact :: logged w |})
  else (Raise (CommError (wandb.name artifact)), w).

(** Line 63. *)
Definition os_remove (path : string) : IO unit := fun w =>
  match disk w !! path with
  | Some _ => (Ok (), {| disk := delete path (disk w); logged := logged w |})
  | None => (Raise (FileNotFoundError path), w)
  end.

Definition go_function (args : Args) : IO unit :=
  lift (init B);;
  artifact_path ← artifact_file (input_artifact args);
  data_frame ← read_csv artifact_path;
  data_frame ← lift (clean (parse_datetime B) (from_epoch B)
                           (min_price args) (max_price args) data_frame);
  let filename := output_artifact args in
  to_csv_file data_frame filename false;;
  artifact ← lift (Artifact (output_artifact args) (output_type args)
                            (output_description args));
  artifact ← add_file artifact filename;
  log_artifact artifact;;
  os_remove filename.

End Run.

(** The file a run writes for a cleaned table: the header and one line
    per row, without the index. *)
Definition file_of (B : backend) (out : DataFrame) : csv :=
  to_csv (repr B) (repr_label B) out true false.

(** The artifact a run logs for a cleaned table. *)
Definition artifact_of (B : backend) (args : Args) (out : DataFrame)
  : wandb.Artifact :=
  {| wandb.name := output_artifact args;
     wandb.type := output_type args;
     wandb.description := output_description args;
     wandb.files := [(output_artifact args, file_of B out)] |}.

(** The world once a file has been put on the disk. *)
Definition with_file (path : string) (content : csv) (w : world) : world :=
  {| disk := <[path := content]> (disk w); logged := logged w |}.

(** ** A concrete run

    An instance of the collaborators to evaluate the step on: dates are
    read in the form [YYYY-MM-DD], the spellings of the null are read as
    the null, cells are printed by a fixed table, and the service holds one
    artifact. *)

Module Sample.

Definition digit (a : ascii) : option Z :=
  let n := Z.of_nat (nat_of_ascii a) in
  if ((48 <=? n) && (n <=? 57))%Z then Some (n - 48)%Z else None.

Fixpoint number (acc : Z) (ds : list ascii) : option Z :=
  match ds with
  | [] => Some acc
  | d :: ds' => n ← digit d; number (10 * acc + n)%Z ds'
  end.

Definition leap (y : Z) : bool :=
  ((y mod 4 =? 0) && (negb (y mod 100 =? 0) || (y mod 400 =? 0)))%Z.

Definition days_in_month (y m : Z) : Z :=
  if (m =? 2)%Z then (if leap y then 29 else 28)%Z
  else if ((m =? 4) || (m =? 6) || (m =? 9) || (m =? 11))%Z then 30%Z
  else 31%Z.

(** Days from 1970-01-01 to a date of the proleptic Gregorian calendar. *)
Definition days_from_civil (y m d : Z) : Z :=
  let y' := (if (m <=? 2)%Z then y - 1 else y)%Z in
  let era := (y' / 400)%Z in
  let yoe := (y' - era * 400)%Z in
  let mp := (if (m <=? 2)%Z then m + 9 else m - 3)%Z in
  let doy := ((153 * mp + 2) / 5 + d - 1)%Z in
  let doe := (yoe * 365 + yoe / 4 - yoe / 100 + doy)%Z in
  (era * 146097 + doe - 719468)%Z.

Definition civil_date (s : string) : option Z :=
  match String.list_ascii_of_string s with
  | [y1; y2; y3; y4; s1; m1; m2; s2; d1; d2] =>
      if bool_decide (s1 = "-"%char ∧ s2 = "-"%char) then
        y ← number 0 [y1; y2; y3; y4];
        m ← number 0 [m1; m2];
        d ← number 0 [d1; d2];
        if ((1 <=? m) && (m <=? 12) && (1 <=? d)
            && (d <=? days_in_month y m))%Z
        then Some (days_from_civil y m d * 86400000000000)%Z
        else None
      else None
  | _ => None
  end.

(** The strings pandas reads as the null. *)
Definition nat_strings : list string :=
  ["NaT"; "nat"; "NAT"; "nan"; "NaN"; "NAN"].

Definition iso_date (s : string) : result (option Z) :=
  if bool_decide (s ∈ nat_strings) then Ok None
  else match civil_date s with
       | Some ns => Ok (Some ns)
       | None => Raise (DateParseError s)
       end.

(** No number is taken for a date. *)
Definition no_epoch (v : value) : result (option Z) :=
  Raise OutOfBoundsDatetime.

Definition listing (price longitude latitude : float)
    (last_review : value) : record :=
  {[ "price" := Num price; "longitude" := Num longitude;
     "latitude" := Num latitude; "last_review" := last_review ]}.

Definition header : list string :=
  ["price"; "longitude"; "latitude"; "last_review"].

(** The rows of the specification's scenarios, one undated listing, and
    listings whose price sits on a bound. *)
Definition listings : DataFrame :=
  {| columns := header;
     rows := [ (0%Z, listing 50 (-73.9) 40.7 (Str "2019-05-01"));
               (1%Z, listing 500 (-73.9) 40.7 (Str "2019-06-23"));
               (2%Z, listing 50 (-75.0) 40.7 (Str "2018-11-04"));
               (3%Z, listing 10 (-74.0) 40.6 NaN);
               (4%Z, listing 100 (-73.95) 41.2 (Str "2019-07-08")) ] |}.

(** The same table with a review date that is not one. *)
Definition bad_dates : DataFrame :=
  {| columns := header;
     rows := [ (0%Z, listing 50 (-73.9) 40.7 (Str "2019-05-01"));
               (1%Z, listing 60 (-73.9) 40.7 (Str "last week")) ] |}.

(** A table with a review date spelled as the null. *)
Definition null_dates : DataFrame :=
  {| columns := header;
     rows := [ (0%Z, listing 50 (-73.9) 40.7 (Str "2019-05-01"));
               (1%Z, listing 60 (-73.9) 40.7 (Str "NaT")) ] |}.

(** A table of one listing whose price is an integer above 2^53. *)
Definition big_price : DataFrame :=
  {| columns := header;
     rows := [ (0%Z, <["price" := Int 9007199254740993]>
                       (listing 0 (-73.9) 40.7 NaN)) ] |}.

(** What the cleaning makes of [listings] for prices from 10 to 100. *)
Definition cleaned : DataFrame :=
  {| columns := header;
     rows := [ (0%Z, listing 50 (-73.9) 40.7
                       (Timestamp 1556668800000000000));
               (3%Z, listing 10 (-74.0) 40.6 NaT);
               (4%Z, listing 100 (-73.95) 41.2
                       (Timestamp 1562544000000000000)) ] |}.

Definition show (v : value) : string :=
  match v with
  | Int _ => "<integer>"
  | Num _ => "<number>"
  | Str s => s
  | Timestamp ns => "<timestamp>"
  | NaT => ""
  end.

Definition show_label (l : Z) : string := "<label>".

Definition raw : csv := [header].

Definition service (table : DataFrame) (can_write can_upload : bool)
  : backend :=
  {| init := Ok ();
     use_artifact := fun name =>
       if decide (name = "sample.csv:latest")
       then Ok ("artifacts/sample.csv", raw)
       else Raise (CommError name);
     parse_csv := fun _ => Ok table;
     parse_datetime := iso_date;
     from_epoch := no_epoch;
     repr := show;
     repr_label := show_label;
     writable := fun _ => can_write;
     valid_artifact := fun name _ =>
       bool_decide (":"%char ∉ String.list_ascii_of_string name);
     upload := fun _ => can_upload |}.

Definition args (lo hi : float) : Args :=
  {| input_artifact := "sample.csv:latest";
     output_artifact := "clean_sample.csv";
     output_type := "clean_sample";
     output_description := "Data with outliers and null values removed";
     min_price := lo;
     max_price := hi |}.

(** The same arguments with an output name the constructor rejects. *)
Definition versioned_args (lo hi : float) : Args :=
  {| input_artifact := "sample.csv:latest";
     output_artifact := "clean_sample.csv:v1";
     output_type := "clean_sample";
     output_description := "Data with outliers and null values removed";
     min_price := lo;
     max_price := hi |}.

Definition start : world := {| disk := ∅; logged := [] |}.

End Sample.

(** ** Reading the filters row by row

    What the masks compute, said of one cell and of one record. *)

Definition is_num (v : value) : bool :=
  match v with
  | Int _ | Num _ => true
  | _ => false
  end.

(** The mask entry [Series.between] computes for a number: the cell, as
    binary64, is in the closed interval. *)
Definition within (lo hi : float) (v : value) : bool :=
  match as_float v with
  | Some x => ((lo <=? x) && (x <=? hi))%float
  | None => false
  end.

(** A cell holds a number that, as binary64, is in the closed interval
    from [lo] to [hi]. *)
Definition lies_in (v : value) (lo hi : float) : Prop :=
  ∃ x, as_float v = Some x ∧
       (lo <=? x)%float = true ∧ (x <=? hi)%float = true.

Definition price_ok (lo hi : float) (r : Z * record) : Prop :=
  within lo hi (cell r.2 "price") = true.

Definition in_bbox (r : Z * record) : Prop :=
  within (-74.25) (-73.50) (cell r.2 "longitude")
  && within 40.5 41.2 (cell r.2 "latitude") = true.

Definition kept (lo hi : float) (r : Z * record) : Prop :=
  price_ok lo hi r ∧ in_bbox r.

(** Two records that differ at most in their review date. *)
Definition same_but_review (r r' : record) : Prop :=
  ∀ c, c ≠ "last_review" → r' !! c = r !! c.

(** The three bounds of the cleaned table, said of one record. *)
Definition in_bounds (lo hi : float) (r : record) : Prop :=
  lies_in (cell r "price") lo hi ∧
  lies_in (cell r "longitude") (-74.25) (-73.50) ∧
  lies_in (cell r "latitude") 40.5 41.2.

(** A row with its review date left out. *)
Definition without_review (r : Z * record) : Z * record :=
  (r.1, delete "last_review" r.2).

(** The bounds as the specification words them, of the number a cell
    holds and not of its binary64 rounding: an integer is compared with a
    float bound exactly, the float [m * 2^e] being the rational it
    denotes. *)
Definition Z_compare_float (n : Z) (x : float) : option comparison :=
  match Prim2SF x with
  | S754_nan => None
  | S754_infinity s => Some (if s then Gt else Lt)
  | S754_zero _ => Some (n ?= 0)%Z
  | S754_finite s m e =>
      let v := if s then Z.neg m else Z.pos m in
      Some (if (0 <=? e)%Z then (n ?= v * 2 ^ e)%Z
            else (n * 2 ^ (- e) ?= v)%Z)
  end.

Definition exactly_within (lo hi : float) (v : value) : bool :=
  match v with
  | Int n =>
      match Z_compare_float n lo, Z_compare_float n hi with
      | Some (Gt | Eq), Some (Lt | Eq) => true
      | _, _ => false
      end
  | Num x => ((lo <=? x) && (x <=? hi))%float
  | Str _ | Timestamp _ | NaT => false
  end.

Definition exactly_in_bounds (lo hi : float) (r : record) : Prop :=
  exactly_within lo hi (cell r "price") = true ∧
  exactly_within (-74.25) (-73.50) (cell r "longitude") = true ∧
  exactly_within 40.5 41.2 (cell r "latitude") = true.

Section Dated.

Context (parse_datetime : string -> result (option Z)).
Context (from_epoch : value -> result (option Z)).

(** [r'] is [r] with its review date converted. *)
Definition dated (r r' : Z * record) : Prop :=
  r'.1 = r.1 ∧
  ∃ v, to_datetime_scalar parse_datetime from_epoch
         (cell r.2 "last_review") = Ok v ∧
       r'.2 = <["last_review" := v]> r.2.

(** A row whose review date is already converted. *)
Definition review_converted (r : Z * record) : Prop :=
  ∃ v, r.2 !! "last_review" = Some v ∧
       to_datetime_scalar parse_datetime from_epoch v = Ok v.

End Dated.

#[global] Instance price_ok_dec lo hi r : Decision (price_ok lo hi r).
Proof. unfold price_ok. apply _. Defined.

#[global] Instance in_bbox_dec r : Decision (in_bbox r).
Proof. unfold in_bbox. apply _. Defined.

#[global] Instance kept_dec lo hi r : Decision (kept lo hi r).
Proof. unfold kept. apply _. Defined.

(** ** The order of binary64 numbers

    Prices and coordinates are [float64] cells and the bounds are Python
    floats, so every comparison of the script is an IEEE 754 comparison.
    The facts about it that the filters rely on are derived from the
    specification of the primitive comparisons. *)

Module FloatOrder.

Lemma SFcompare_finite_pos m1 e1 m2 e2 :
  SFcompare (S754_finite false m1 e1) (S754_finite false m2 e2) =
  Some (match (e1 ?= e2)%Z with
        | Lt => Lt | Gt => Gt | Eq => (m1 ?= m2)%positive end).
Proof. reflexivity. Qed.

Lemma SFcompare_finite_neg m1 e1 m2 e2 :
  SFcompare (S754_finite true m1 e1) (S754_finite true m2 e2) =
  Some (match (e1 ?= e2)%Z with
        | Lt => Gt | Gt => Lt | Eq => CompOpp (m1 ?= m2)%positive end).
Proof. reflexivity. Qed.

Lemma SFleb_trans a b c :
  SFleb a b = true -> SFleb b c = true -> SFleb a c = true.
Proof.
  unfold SFleb.
  destruct a as [[]|[]| |[] m1 e1], b as [[]|[]| |[] m2 e2],
           c as [[]|[]| |[] m3 e3];
    try (cbn; congruence);
    rewrite ?SFcompare_finite_pos, ?SFcompare_finite_neg;
    destruct (Z.compare_spec e1 e2), (Z.compare_spec e2 e3),
             (Z.compare_spec e1 e3);
    try lia; try (cbn; congruence); subst;
    destruct (Pos.compare_spec m1 m2), (Pos.compare_spec m2 m3),
             (Pos.compare_spec m1 m3);
    try lia; cbn; congruence.
Qed.

Lemma SFcompare_antisym a b :
  SFcompare b a = option_map CompOpp (SFcompare a b).
Proof.
  destruct a as [[]|[]| |[] m1 e1], b as [[]|[]| |[] m2 e2];
    try reflexivity;
    rewrite ?SFcompare_finite_pos, ?SFcompare_finite_neg; cbn;
    rewrite (Z.compare_antisym e2 e1), (Pos.compare_antisym m2 m1);
    destruct (e2 ?= e1)%Z, (m2 ?= m1)%positive; reflexivity.
Qed.

Lemma leb_trans (a b c : float) :
  (a <=? b)%float = true -> (b <=? c)%float = true -> (a <=? c)%float = true.
Proof. rewrite !FloatAxioms.leb_spec. apply SFleb_trans. Qed.

Lemma leb_not_ltb (a b : float) :
  (a <=? b)%float = true -> (b <? a)%float = false.
Proof.
  rewrite FloatAxioms.leb_spec, FloatAxioms.ltb_spec.
  unfold SFleb, SFltb. rewrite (SFcompare_antisym (Prim2SF a) (Prim2SF b)).
  destruct (SFcompare (Prim2SF a) (Prim2SF b)) as [[]|]; cbn; congruence.
Qed.

Lemma eqb_leb (a b : float) :
  (a =? b)%float = true ->
  (a <=? b)%float = true /\ (b <=? a)%float = true.
Proof.
  rewrite !FloatAxioms.leb_spec, FloatAxioms.eqb_spec.
  unfold SFleb, SFeqb. rewrite (SFcompare_antisym (Prim2SF a) (Prim2SF b)).
  destruct (SFcompare (Prim2SF a) (Prim2SF b)) as [[]|]; cbn;
    (split; congruence).
Qed.

(** A bound that compares as strictly above another leaves no number
    between them. *)
Lemma empty_interval (lo hi x : float) :
  (hi <? lo)%float = true ->
  ((lo <=? x) && (x <=? hi))%float = false.
Proof.
  intros Hlt.
  destruct (lo <=? x)%float eqn:H1, (x <=? hi)%float eqn:H2; try reflexivity.
  pose proof (leb_not_ltb _ _ (leb_trans _ _ _ H1 H2)). congruence.
Qed.

End FloatOrder.

(** ** Missing numbers and unbounded intervals

    NaN compares false with everything, and the two infinities bound every
    other number. *)

Module FloatEdge.

Lemma SFcompare_nan_r s : SFcompare s S754_nan = None.
Proof. by destruct s as [[]|[]| |[]]. Qed.

Lemma SFcompare_refl s : s ≠ S754_nan → SFcompare s s = Some Eq.
Proof.
  destruct s as [[]|[]| |[] m e]; try done; intros _;
    rewrite ?FloatOrder.SFcompare_finite_pos,
            ?FloatOrder.SFcompare_finite_neg;
    by rewrite Z.compare_refl, Pos.compare_refl.
Qed.

Lemma is_nan_spec (x : float) : is_nan x = true ↔ Prim2SF x = S754_nan.
Proof.
  unfold is_nan. rewrite FloatAxioms.eqb_spec. unfold SFeqb.
  destruct (Prim2SF x) as [[]|[]| |[] m e] eqn:E;
    try (rewrite SFcompare_refl by discriminate; cbn;
         split; discriminate).
  cbn. tauto.
Qed.

Lemma leb_nan_l (x y : float) : is_nan x = true → (x <=? y)%float = false.
Proof.
  intros E%is_nan_spec. rewrite FloatAxioms.leb_spec, E. reflexivity.
Qed.

Lemma leb_nan_r (x y : float) : is_nan y = true → (x <=? y)%float = false.
Proof.
  intros E%is_nan_spec. rewrite FloatAxioms.leb_spec, E.
  unfold SFleb. by rewrite SFcompare_nan_r.
Qed.

Lemma neg_infinity_leb (x : float) :
  (neg_infinity <=? x)%float = negb (is_nan x).
Proof.
  destruct (is_nan x) eqn:E.
  - by apply leb_nan_r.
  - rewrite FloatAxioms.leb_spec.
    assert (Prim2SF x ≠ S754_nan) as H.
    { intros H%is_nan_spec. congruence. }
    change (Prim2SF neg_infinity) with (S754_infinity true).
    by destruct (Prim2SF x) as [[]|[]| |[]].
Qed.

Lemma leb_infinity (x : float) :
  (x <=? infinity)%float = negb (is_nan x).
Proof.
  destruct (is_nan x) eqn:E.
  - by apply leb_nan_l.
  - rewrite FloatAxioms.leb_spec.
    assert (Prim2SF x ≠ S754_nan) as H.
    { intros H%is_nan_spec. congruence. }
    change (Prim2SF infinity) with (S754_infinity false).
    by destruct (Prim2SF x) as [[]|[]| |[]].
Qed.

End FloatEdge.

Lemma leb_not_nan (a b : float) :
  (a <=? b)%float = true → is_nan a = false ∧ is_nan b = false.
Proof.
  intros H. split.
  - destruct (is_nan a) eqn:E; [|reflexivity].
    by rewrite (FloatEdge.leb_nan_l a b E) in H.
  - destruct (is_nan b) eqn:E; [|reflexivity].
    by rewrite (FloatEdge.leb_nan_r a b E) in H.
Qed.

(** ** The result monad *)

Lemma bind_Ok {A B : Type} (m : result A) (f : A -> result B) (b : B) :
  m ≫= f = Ok b ↔ ∃ a, m = Ok a ∧ f a = Ok b.
Proof.
  destruct m as [a|e]; cbn; split.
  - eauto.
  - intros (a' & [= <-] & H). exact H.
  - discriminate.
  - intros (a' & [=] & _).
Qed.

Lemma mapM_cons {A B : Type} (f : A -> result B) (x : A) (l : list A) :
  mapM f (x :: l) = y ← f x; k ← mapM f l; mret (y :: k).
Proof. reflexivity. Qed.

Lemma mapM_Ok {A B : Type} (f : A -> result B) (l : list A) (k : list B) :
  mapM f l = Ok k ↔ Forall2 (fun x y => f x = Ok y) l k.
Proof.
  revert k. induction l as [|x l IH]; intros k.
  - split.
    + intros [= <-]. constructor.
    + intros H. inversion H. reflexivity.
  - rewrite mapM_cons. split.
    + intros (y & Hy & H)%bind_Ok. apply bind_Ok in H as (k' & Hk' & [= <-]).
      constructor; [exact Hy | by apply IH].
    + intros H. inversion H as [|? y ? k' Hy Hk']; subst.
      apply bind_Ok. exists y. split; [exact Hy|].
      apply bind_Ok. exists k'. split; [by apply IH | reflexivity].
Qed.

(** ** Masks *)

Lemma within_lies_in (lo hi : float) (v : value) :
  within lo hi v = true ↔ lies_in v lo hi.
Proof.
  unfold lies_in, within. destruct (as_float v) as [x|].
  - rewrite andb_true_iff. split.
    + intros [? ?]. by exists x.
    + intros (? & [= <-] & ? & ?). done.
  - split; [done | by intros (? & [=] & _)].
Qed.

Lemma within_nan_l (lo hi : float) (v : value) :
  is_nan lo = true → within lo hi v = false.
Proof.
  intros H. unfold within. destruct (as_float v) as [x|]; [|reflexivity].
  by rewrite (FloatEdge.leb_nan_l lo x H).
Qed.

Lemma within_nan_r (lo hi : float) (v : value) :
  is_nan hi = true → within lo hi v = false.
Proof.
  intros H. unfold within. destruct (as_float v) as [x|]; [|reflexivity].
  rewrite (FloatEdge.leb_nan_r x hi H). apply andb_false_r.
Qed.

Lemma ge_scalar_series (left : float) (s : Series) :
  mapM (ge_scalar left) s =
  if forallb is_num s
  then Ok (map (fun v => match as_float v with
                         | Some x => (left <=? x)%float
                         | None => false
                         end) s)
  else Raise TypeError.
Proof.
  induction s as [|v s IH]; [reflexivity|].
  rewrite mapM_cons, IH.
  destruct v; cbn; try reflexivity; by destruct (forallb is_num s).
Qed.

Lemma le_scalar_series (right : float) (s : Series) :
  mapM (le_scalar right) s =
  if forallb is_num s
  then Ok (map (fun v => match as_float v with
                         | Some x => (x <=? right)%float
                         | None => false
                         end) s)
  else Raise TypeError.
Proof.
  induction s as [|v s IH]; [reflexivity|].
  rewrite mapM_cons, IH.
  destruct v; cbn; try reflexivity; by destruct (forallb is_num s).
Qed.

Lemma mask_and_false_l {A : Type} (f : A → bool) (s : list A) :
  mask_and (map (fun _ => false) s) (map f s) = map (fun _ => false) s.
Proof.
  unfold mask_and. induction s as [|v s IH]; [reflexivity|].
  cbn. by rewrite IH.
Qed.

Lemma mask_and_false_r {A : Type} (f : A → bool) (s : list A) :
  mask_and (map f s) (map (fun _ => false) s) = map (fun _ => false) s.
Proof.
  unfold mask_and. induction s as [|v s IH]; [reflexivity|].
  cbn. by rewrite IH, andb_false_r.
Qed.

(** [between] raises exactly when one of its bounds is not NaN and the
    series holds something that is not a number, and otherwise marks the
    numbers of the closed interval. *)
Lemma between_series (s : Series) (lo hi : float) :
  between s lo hi =
  if (is_nan lo && is_nan hi) || forallb is_num s
  then Ok (map (within lo hi) s)
  else Raise TypeError.
Proof.
  unfold between, series_ge, series_le.
  destruct (is_nan lo) eqn:Hlo, (is_nan hi) eqn:Hhi; cbn -[mask_and].
  - f_equal. rewrite (mask_and_false_l (fun _ => false)).
    apply map_ext. intros v. by rewrite within_nan_l.
  - rewrite le_scalar_series. destruct (forallb is_num s); [|reflexivity].
    cbn -[mask_and]. f_equal. rewrite mask_and_false_l.
    apply map_ext. intros v. by rewrite within_nan_l.
  - rewrite ge_scalar_series. destruct (forallb is_num s); [|reflexivity].
    cbn -[mask_and]. f_equal. rewrite mask_and_false_r.
    apply map_ext. intros v. by rewrite within_nan_r.
  - rewrite ge_scalar_series, le_scalar_series.
    destruct (forallb is_num s); [|reflexivity].
    cbn. f_equal. unfold mask_and, within.
    induction s as [|v s IH]; [reflexivity|].
    cbn. rewrite IH. by destruct (as_float v).
Qed.

Lemma select_map {A : Type} (p : A -> bool) (xs : list A) :
  select (map p xs) xs = filter (fun x => p x = true) xs.
Proof.
  induction xs as [|x xs IH]; [reflexivity|].
  cbn [select map]. rewrite filter_cons, IH.
  destruct (p x); by case_decide.
Qed.

Lemma select_zip_and {A : Type} (p q : A -> bool) (xs : list A) :
  select (mask_and (map p xs) (map q xs)) xs =
  filter (fun x => p x && q x = true) xs.
Proof.
  rewrite <- (select_map (fun x => p x && q x)). f_equal.
  unfold mask_and. induction xs as [|x xs IH]; [reflexivity|].
  cbn. by rewrite IH.
Qed.

Lemma between_series_bounded (s : Series) (lo hi : float) :
  is_nan lo = false ∨ is_nan hi = false →
  between s lo hi =
  if forallb is_num s then Ok (map (within lo hi) s) else Raise TypeError.
Proof.
  intros H. rewrite between_series.
  by destruct H as [-> | ->]; rewrite ?andb_false_r.
Qed.

(** ** The three steps of the cleaning *)

Lemma price_filter_eq (lo hi : float) (df : DataFrame) :
  price_filter lo hi df =
  if decide ("price" ∈ columns df) then
    if (is_nan lo && is_nan hi)
       || forallb is_num (map (fun r => cell r.2 "price") (rows df))
    then Ok {| columns := columns df;
               rows := filter (price_ok lo hi) (rows df) |}
    else Raise TypeError
  else Raise (KeyError "price").
Proof.
  unfold price_filter, getitem. case_decide; [|reflexivity].
  cbn. rewrite between_series.
  destruct (_ || _); [|reflexivity].
  cbn. unfold copy, loc. do 2 f_equal.
  rewrite List.map_map.
  apply (select_map (fun r => within lo hi (cell r.2 "price"))).
Qed.

Lemma bbox_filter_eq (df : DataFrame) :
  bbox_filter df =
  if decide ("longitude" ∈ columns df) then
    if forallb is_num (map (fun r => cell r.2 "longitude") (rows df)) then
      if decide ("latitude" ∈ columns df) then
        if forallb is_num (map (fun r => cell r.2 "latitude") (rows df))
        then Ok {| columns := columns df;
                   rows := filter in_bbox (rows df) |}
        else Raise TypeError
      else Raise (KeyError "latitude")
    else Raise TypeError
  else Raise (KeyError "longitude").
Proof.
  unfold bbox_filter, getitem.
  destruct (decide ("longitude" ∈ columns df)); [|reflexivity].
  cbn -[between]. rewrite between_series_bounded by (left; reflexivity).
  destruct (forallb is_num (map _ (rows df))); [|reflexivity].
  cbn -[between].
  destruct (decide ("latitude" ∈ columns df)); [|reflexivity].
  cbn -[between]. rewrite between_series_bounded by (left; reflexivity).
  destruct (forallb is_num (map _ (rows df))); [|reflexivity].
  cbn. unfold copy, loc. do 2 f_equal.
  rewrite !List.map_map.
  apply (select_zip_and
           (fun r => within (-74.25) (-73.50) (cell r.2 "longitude"))
           (fun r => within 40.5 41.2 (cell r.2 "latitude"))).
Qed.

Lemma cell_insert_ne (r : record) (c c' : string) (v : value) :
  c ≠ c' → cell (<[c := v]> r) c' = cell r c'.
Proof. intros H. unfold cell. by rewrite lookup_insert_ne. Qed.

Lemma cell_insert_eq (r : record) (c : string) (v : value) :
  cell (<[c := v]> r) c = v.
Proof. unfold cell. by rewrite lookup_insert_eq. Qed.

Section Steps.

Context (parse : string -> result (option Z)).
Context (epoch : value -> result (option Z)).

Lemma dated_price_ok lo hi r r' :
  dated parse epoch r r' → price_ok lo hi r' ↔ price_ok lo hi r.
Proof.
  intros (_ & v & _ & E). unfold price_ok. by rewrite E, cell_insert_ne.
Qed.

Lemma dated_in_bbox r r' : dated parse epoch r r' → in_bbox r' ↔ in_bbox r.
Proof.
  intros (_ & v & _ & E). unfold in_bbox. by rewrite E, !cell_insert_ne.
Qed.

Lemma dated_same_but_review r r' :
  dated parse epoch r r' → same_but_review r.2 r'.2.
Proof.
  intros (_ & v & _ & E) c Hc. rewrite E. by apply lookup_insert_ne.
Qed.

Lemma convert_last_review_Ok (df df' : DataFrame) :
  convert_last_review parse epoch df = Ok df' →
  columns df' = columns df ∧ Forall2 (dated parse epoch) (rows df) (rows df').
Proof.
  unfold convert_last_review, getitem.
  case_decide as Hc; [|discriminate].
  cbn. intros (conv & Hconv & [= <-])%bind_Ok.
  cbn. rewrite decide_True by exact Hc. split; [reflexivity|].
  apply mapM_Ok in Hconv.
  remember (map (fun r : Z * record => cell r.2 "last_review") (rows df))
    as cells eqn:Ecells.
  revert Ecells. generalize (rows df).
  induction Hconv as [|v v' cells conv Hv _ IH]; intros [|r l] [=].
  - constructor.
  - subst. cbn. constructor; [|by apply IH].
    split; [reflexivity|]. by exists v'.
Qed.

Lemma Forall2_dated_filter (P Q : Z * record → Prop)
    `{!∀ r, Decision (P r), !∀ r, Decision (Q r)} l k :
  (∀ r r', dated parse epoch r r' → (Q r' ↔ P r)) →
  Forall2 (dated parse epoch) l k →
  Forall2 (dated parse epoch) (filter P l) (filter Q k).
Proof.
  intros HPQ. induction 1 as [|r r' l k Hr _ IH]; [constructor|].
  rewrite !filter_cons. specialize (HPQ _ _ Hr).
  destruct (decide (P r)), (decide (Q r')); try tauto.
  by constructor.
Qed.

(** The cleaned table: the header is kept, and the rows are the rows of
    the input that pass both filters, in order, each with its review date
    converted. *)
Lemma clean_rows (lo hi : float) (df out : DataFrame) :
  clean parse epoch lo hi df = Ok out →
  columns out = columns df ∧
  Forall2 (dated parse epoch) (filter (kept lo hi) (rows df)) (rows out).
Proof.
  unfold clean.
  intros (df1 & H1 & H)%bind_Ok. apply bind_Ok in H as (df2 & H2 & H3).
  rewrite price_filter_eq in H1. rewrite bbox_filter_eq in H3.
  apply convert_last_review_Ok in H2 as [Hc2 Hr2].
  repeat (case_match; try discriminate).
  injection H1 as <-. injection H3 as <-. cbn in *.
  split; [exact Hc2|].
  assert (filter (kept lo hi) (rows df)
          = filter in_bbox (filter (price_ok lo hi) (rows df))) as ->.
  { rewrite list_filter_filter. apply list_filter_iff.
    intros r. unfold kept. tauto. }
  apply Forall2_dated_filter; [|exact Hr2].
  intros r r'. apply dated_in_bbox.
Qed.

End Steps.

(** The columns the cleaning reads. *)

Lemma clean_Ok_columns parse epoch lo hi df out :
  clean parse epoch lo hi df = Ok out →
  Forall (fun c => c ∈ columns df)
         ["price"; "last_review"; "longitude"; "latitude"].
Proof.
  unfold clean.
  intros (df1 & H1 & H)%bind_Ok. apply bind_Ok in H as (df2 & H2 & H3).
  assert ("last_review" ∈ columns df1) as Hrev.
  { unfold convert_last_review, getitem in H2.
    by destruct (decide ("last_review" ∈ columns df1)). }
  apply convert_last_review_Ok in H2 as [Hc2 _].
  rewrite price_filter_eq in H1. rewrite bbox_filter_eq in H3.
  repeat (case_match; try discriminate).
  injection H1 as <-. cbn in *.
  rewrite !Forall_cons. repeat split; try done; by rewrite <- Hc2.
Qed.

(** A table that lacks one of the four columns the cleaning reads makes
    it raise. *)
Lemma clean_missing_column parse epoch lo hi df c :
  c ∈ ["price"; "last_review"; "longitude"; "latitude"] →
  c ∉ columns df →
  ∃ e, clean parse epoch lo hi df = Raise e.
Proof.
  intros Hc Hmiss.
  destruct (clean parse epoch lo hi df) as [out|e] eqn:E; [|by exists e].
  apply clean_Ok_columns in E.
  rewrite Forall_forall in E. by destruct Hmiss; apply E.
Qed.

(** ** Which rows are kept *)

Lemma kept_in_bounds (lo hi : float) (l : Z) (r : record) :
  kept lo hi (l, r) ↔ in_bounds lo hi r.
Proof.
  unfold kept, price_ok, in_bbox, in_bounds. cbn.
  rewrite andb_true_iff, !within_lies_in. tauto.
Qed.

Lemma in_bounds_same_but_review (lo hi : float) (r r' : record) :
  same_but_review r r' → in_bounds lo hi r' ↔ in_bounds lo hi r.
Proof.
  intros H. unfold in_bounds, cell. by rewrite !H.
Qed.

Lemma Forall2_elem_of_l {A B : Type} (R : A → B → Prop) l k x :
  Forall2 R l k → x ∈ l → ∃ y, y ∈ k ∧ R x y.
Proof.
  induction 1 as [|a b l k Hab _ IH]; intros Hx.
  - by apply elem_of_nil in Hx.
  - apply elem_of_cons in Hx as [->|Hx].
    + exists b. split; [left | exact Hab].
    + destruct (IH Hx) as (y & ? & ?). exists y. split; [by right | done].
Qed.

Lemma Forall2_elem_of_r {A B : Type} (R : A → B → Prop) l k y :
  Forall2 R l k → y ∈ k → ∃ x, x ∈ l ∧ R x y.
Proof.
  induction 1 as [|a b l k Hab _ IH]; intros Hy.
  - by apply elem_of_nil in Hy.
  - apply elem_of_cons in Hy as [->|Hy].
    + exists a. split; [left | exact Hab].
    + destruct (IH Hy) as (x & ? & ?). exists x. split; [by right | done].
Qed.

(** Every row of the cleaned table is a kept row of the input with its
    review date converted. *)
Lemma clean_row_origin parse epoch lo hi df out l r' :
  clean parse epoch lo hi df = Ok out →
  (l, r') ∈ rows out →
  ∃ r, (l, r) ∈ rows df ∧ in_bounds lo hi r ∧
       dated parse epoch (l, r) (l, r').
Proof.
  intros [_ H]%clean_rows Hin.
  destruct (Forall2_elem_of_r _ _ _ _ H Hin) as ([l0 r] & Hr & Hd).
  apply list_elem_of_filter in Hr as [Hk Hr].
  assert (l = l0) as <- by apply Hd.
  exists r. by rewrite <- kept_in_bounds.
Qed.

(** Every kept row of the input has its converted copy in the cleaned
    table. *)
Lemma clean_row_image parse epoch lo hi df out l r :
  clean parse epoch lo hi df = Ok out →
  (l, r) ∈ rows df → in_bounds lo hi r →
  ∃ r', (l, r') ∈ rows out ∧ dated parse epoch (l, r) (l, r').
Proof.
  intros [_ H]%clean_rows Hin Hb.
  assert ((l, r) ∈ filter (kept lo hi) (rows df)) as Hf.
  { apply list_elem_of_filter. by rewrite kept_in_bounds. }
  destruct (Forall2_elem_of_l _ _ _ _ H Hf) as ([l' r'] & Hr' & Hd).
  assert (l' = l) as -> by apply Hd.
  by exists r'.
Qed.

(** C1, as stated: the bounds are not bounds on the numbers the table
    holds.  The listing of [big_price] has the integer price 2^53 + 1 and
    the bounds are 0 and 2^53; the price is converted to binary64 before
    it is compared, which rounds it to 2^53, and the row is in the
    output. *)
Lemma big_price_kept :
  ¬ (∀ parse epoch min_price max_price df out,
       clean parse epoch min_price max_price df = Ok out →
       ∀ l r', (l, r') ∈ rows out →
               exactly_in_bounds min_price max_price r').
Proof.
  intros H.
  set (r' := <["last_review" := NaT]>
               (<["price" := Int 9007199254740993]>
                  (Sample.listing 0 (-73.9) 40.7 NaN)) : record).
  assert (clean Sample.iso_date Sample.no_epoch 0 9007199254740992
                Sample.big_price
          = Ok {| columns := Sample.header; rows := [(0%Z, r')] |})
    as Hclean by (vm_compute; reflexivity).
  destruct (H _ _ _ _ _ _ Hclean 0%Z r') as [Hprice _]; [left|].
  vm_compute in Hprice. discriminate Hprice.
Qed.

(** C1, amended.  When the cleaning returns a table, a row of the input
    appears in it (under its label, up to the conversion of its review
    date) if and only if its price, its longitude and its latitude, each
    taken as the binary64 number it is compared as (an integer cell
    rounded to the nearest one), lie in [[min_price, max_price]],
    [[-74.25, -73.50]] and [[40.5, 41.2]]; and every record of the returned
    table satisfies the three bounds in that reading. *)
Theorem clean_keeps_exactly parse epoch min_price max_price df out :
  clean parse epoch min_price max_price df = Ok out →
  (∀ l r, (l, r) ∈ rows df →
     (∃ r', (l, r') ∈ rows out ∧ same_but_review r r') ↔
     in_bounds min_price max_price r) ∧
  (∀ l r', (l, r') ∈ rows out → in_bounds min_price max_price r').
Proof.
  intros Hclean. split.
  - intros l r Hin. split.
    + intros (r' & Hout & Hsame).
      destruct (clean_row_origin _ _ _ _ _ _ _ _ Hclean Hout)
        as (r0 & _ & Hb & Hd).
      apply dated_same_but_review in Hd. cbn in Hd.
      rewrite <- (in_bounds_same_but_review _ _ _ _ Hsame).
      by rewrite (in_bounds_same_but_review _ _ _ _ Hd).
    + intros Hb.
      destruct (clean_row_image _ _ _ _ _ _ _ _ Hclean Hin Hb)
        as (r' & Hout & Hd).
      exists r'. split; [exact Hout|].
      by apply dated_same_but_review in Hd.
  - intros l r' Hout.
    destruct (clean_row_origin _ _ _ _ _ _ _ _ Hclean Hout)
      as (r0 & _ & Hb & Hd).
    apply dated_same_but_review in Hd. cbn in Hd.
    by rewrite (in_bounds_same_but_review _ _ _ _ Hd).
Qed.

(** The scenarios of the specification: the listing priced 50 inside the
    box is kept and its review date converted, the listing priced 500 and
    the listing at longitude -75.0 are dropped. *)
Lemma clean_listings :
  clean Sample.iso_date Sample.no_epoch 10 100 Sample.listings
  = Ok Sample.cleaned.
Proof. vm_compute. reflexivity. Qed.

Lemma clean_keeps_exactly_witness :
  clean Sample.iso_date Sample.no_epoch 10 100 Sample.listings
  = Ok Sample.cleaned ∧
  (∀ l r, (l, r) ∈ rows Sample.listings →
     (∃ r', (l, r') ∈ rows Sample.cleaned ∧ same_but_review r r') ↔
     in_bounds 10 100 r) ∧
  (∀ l r', (l, r') ∈ rows Sample.cleaned → in_bounds 10 100 r').
Proof.
  split.
  - vm_compute. reflexivity.
  - apply (clean_keeps_exactly Sample.iso_date Sample.no_epoch 10 100
             Sample.listings Sample.cleaned).
    vm_compute. reflexivity.
Defined.

(** ** Review dates *)

(** C5. When the cleaning returns a table, a row of the input whose
    [last_review] is a string the date parser reads, and that passes both
    filters, is in the table with [last_review] holding the timestamp the
    parser read. *)
Theorem clean_review_dates parse epoch min_price max_price df out l r s ns :
  clean parse epoch min_price max_price df = Ok out →
  (l, r) ∈ rows df →
  r !! "last_review" = Some (Str s) →
  parse s = Ok (Some ns) →
  in_bounds min_price max_price r →
  (l, <["last_review" := Timestamp ns]> r) ∈ rows out.
Proof.
  intros Hclean Hin Hs Hns Hb.
  destruct (clean_row_image _ _ _ _ _ _ _ _ Hclean Hin Hb)
    as (r' & Hout & _ & v & Hv & E).
  cbn in Hv, E. subst r'.
  unfold cell in Hv. rewrite Hs in Hv. cbn in Hv.
  rewrite Hns in Hv. by injection Hv as <-.
Qed.

Lemma clean_review_dates_witness :
  clean Sample.iso_date Sample.no_epoch 10 100 Sample.listings
  = Ok Sample.cleaned ∧
  (4%Z, Sample.listing 100 (-73.95) 41.2 (Str "2019-07-08"))
    ∈ rows Sample.listings ∧
  Sample.listing 100 (-73.95) 41.2 (Str "2019-07-08") !! "last_review"
  = Some (Str "2019-07-08") ∧
  Sample.iso_date "2019-07-08" = Ok (Some 1562544000000000000%Z) ∧
  in_bounds 10 100 (Sample.listing 100 (-73.95) 41.2 (Str "2019-07-08")) ∧
  (4%Z, <["last_review" := Timestamp 1562544000000000000]>
          (Sample.listing 100 (-73.95) 41.2 (Str "2019-07-08")))
    ∈ rows Sample.cleaned.
Proof.
  assert (in_bounds 10 100
            (Sample.listing 100 (-73.95) 41.2 (Str "2019-07-08"))) as Hb.
  { repeat split; eexists; (split; [reflexivity|]);
      split; vm_compute; reflexivity. }
  assert ((4%Z, Sample.listing 100 (-73.95) 41.2 (Str "2019-07-08"))
            ∈ rows Sample.listings) as Hin.
  { cbn. do 4 right. left. }
  repeat split; try (vm_compute; reflexivity); try exact Hin; try apply Hb.
  apply (clean_review_dates Sample.iso_date Sample.no_epoch 10 100
           Sample.listings Sample.cleaned 4
           (Sample.listing 100 (-73.95) 41.2 (Str "2019-07-08"))
           "2019-07-08" 1562544000000000000%Z);
    try (vm_compute; reflexivity); [exact Hin | exact Hb].
Defined.

(** ** Order and frame *)

Lemma dated_without_review parse epoch l k :
  Forall2 (dated parse epoch) l k →
  without_review <$> k = without_review <$> l.
Proof.
  induction 1 as [|r r' l k (Hl & v & _ & E) _ IH]; [reflexivity|].
  cbn. rewrite IH. f_equal. unfold without_review.
  by rewrite Hl, E, delete_insert_eq.
Qed.

(** C9. The rows of the cleaned table come in the order they had in the
    input: with the review date left aside, the output is the input with
    some rows struck out, and so is its list of labels. *)
Theorem clean_preserves_order parse epoch min_price max_price df out :
  clean parse epoch min_price max_price df = Ok out →
  (without_review <$> rows out) `sublist_of` (without_review <$> rows df) ∧
  (rows out).*1 `sublist_of` (rows df).*1.
Proof.
  intros [_ H]%clean_rows.
  apply dated_without_review in H.
  assert ((without_review <$> rows out)
            `sublist_of` (without_review <$> rows df)) as Hsub.
  { rewrite H. apply fmap_sublist, sublist_filter. }
  split; [exact Hsub|].
  apply (fmap_sublist fst) in Hsub.
  by rewrite <- !list_fmap_compose in Hsub.
Qed.

Lemma clean_preserves_order_witness :
  clean Sample.iso_date Sample.no_epoch 10 100 Sample.listings
  = Ok Sample.cleaned ∧
  (without_review <$> rows Sample.cleaned)
    `sublist_of` (without_review <$> rows Sample.listings) ∧
  (rows Sample.cleaned).*1 `sublist_of` (rows Sample.listings).*1.
Proof.
  split.
  - vm_compute. reflexivity.
  - apply (clean_preserves_order Sample.iso_date Sample.no_epoch 10 100).
    vm_compute. reflexivity.
Defined.

(** C10. The cleaning keeps the header, and the rows it returns are, one
    for one, the kept rows of the input: same label, every entry other
    than [last_review] as it was, and [last_review] holding the conversion
    of the entry that was there. *)
Theorem clean_frame parse epoch min_price max_price df out :
  clean parse epoch min_price max_price df = Ok out →
  columns out = columns df ∧
  Forall2 (fun r r' =>
             r'.1 = r.1 ∧
             same_but_review r.2 r'.2 ∧
             ∃ v, to_datetime_scalar parse epoch (cell r.2 "last_review")
                  = Ok v ∧
                  r'.2 !! "last_review" = Some v)
          (filter (kept min_price max_price) (rows df)) (rows out).
Proof.
  intros [Hc H]%clean_rows. split; [exact Hc|].
  eapply Forall2_impl; [exact H|].
  intros r r' Hd. split; [apply Hd|].
  split; [by eapply dated_same_but_review|].
  destruct Hd as (_ & v & Hv & E). exists v. split; [exact Hv|].
  rewrite E. apply lookup_insert_eq.
Qed.

Lemma clean_frame_witness :
  clean Sample.iso_date Sample.no_epoch 10 100 Sample.listings
  = Ok Sample.cleaned ∧
  columns Sample.cleaned = columns Sample.listings ∧
  Forall2 (fun r r' =>
             r'.1 = r.1 ∧
             same_but_review r.2 r'.2 ∧
             ∃ v, to_datetime_scalar Sample.iso_date Sample.no_epoch
                    (cell r.2 "last_review") = Ok v ∧
                  r'.2 !! "last_review" = Some v)
          (filter (kept 10 100) (rows Sample.listings))
          (rows Sample.cleaned).
Proof.
  split.
  - vm_compute. reflexivity.
  - apply (clean_frame Sample.iso_date Sample.no_epoch 10 100).
    vm_compute. reflexivity.
Defined.

(** ** The price interval *)

Lemma price_filter_rows (lo hi : float) (df df1 : DataFrame) :
  price_filter lo hi df = Ok df1 →
  columns df1 = columns df ∧ rows df1 = filter (price_ok lo hi) (rows df).
Proof.
  rewrite price_filter_eq. repeat (case_match; try discriminate).
  by intros [= <-].
Qed.

Lemma forallb_is_num_Forall {A : Type} (f : A → value) (l : list A) :
  forallb is_num (map f l) = true ↔ Forall (fun r => is_num (f r) = true) l.
Proof.
  induction l as [|r l IH]; cbn.
  - split; [constructor | reflexivity].
  - rewrite andb_true_iff, Forall_cons, IH. tauto.
Qed.

(** An interval no number lies in empties the table. *)
Lemma price_filter_none (lo hi : float) (l : list (Z * record)) :
  (∀ x, ((lo <=? x) && (x <=? hi))%float = false) →
  filter (price_ok lo hi) l = [].
Proof.
  intros Hnone. induction l as [|r l IH]; [reflexivity|].
  rewrite filter_cons_False; [exact IH|].
  unfold price_ok, within. destruct (as_float (cell r.2 "price")); try done.
  by rewrite Hnone.
Qed.

Lemma clean_none parse epoch (lo hi : float) (df out : DataFrame) :
  (∀ x, ((lo <=? x) && (x <=? hi))%float = false) →
  clean parse epoch lo hi df = Ok out → rows out = [].
Proof.
  intros Hnone [_ H]%clean_rows.
  assert (filter (kept lo hi) (rows df) = []) as E.
  { rewrite <- (list_filter_filter_l (kept lo hi) (price_ok lo hi))
      by (by intros ? [? _]).
    by rewrite price_filter_none. }
  rewrite E in H. by inversion H.
Qed.

(** With a price column of numbers, such an interval makes the price
    filter return the bare header. *)
Lemma price_filter_header_only (lo hi : float) (df : DataFrame) :
  (∀ x, ((lo <=? x) && (x <=? hi))%float = false) →
  "price" ∈ columns df →
  Forall (fun r => is_num (cell r.2 "price") = true) (rows df) →
  price_filter lo hi df = Ok {| columns := columns df; rows := [] |}.
Proof.
  intros Hnone Hp Hnum.
  rewrite price_filter_eq, decide_True by exact Hp.
  rewrite (proj2 (forallb_is_num_Forall _ _)) by exact Hnum.
  rewrite orb_true_r. by rewrite price_filter_none.
Qed.

(** On a table with the four columns and numbers for prices, such an
    interval makes the cleaning return the bare header. *)
Lemma clean_header_only parse epoch (lo hi : float) (df : DataFrame) :
  (∀ x, ((lo <=? x) && (x <=? hi))%float = false) →
  Forall (fun c => c ∈ columns df)
         ["price"; "last_review"; "longitude"; "latitude"] →
  Forall (fun r => is_num (cell r.2 "price") = true) (rows df) →
  clean parse epoch lo hi df = Ok {| columns := columns df; rows := [] |}.
Proof.
  rewrite !Forall_cons. intros Hnone (Hp & Hrev & Hlon & Hlat & _) Hnum.
  unfold clean. rewrite price_filter_header_only by assumption. cbn.
  unfold convert_last_review, getitem. cbn.
  rewrite decide_True by exact Hrev. cbn.
  unfold setitem. cbn. rewrite decide_True by exact Hrev.
  rewrite bbox_filter_eq. cbn.
  by rewrite !decide_True by assumption.
Qed.

(** C4. When [min_price] is above [max_price], no row passes the price
    filter and the output table has no rows: whatever table the price
    filter or the cleaning returns is empty, and they do return one, the
    bare header, whenever the columns they read are there and the prices
    are numbers. *)
Theorem clean_inverted_bounds min_price max_price df :
  (max_price <? min_price)%float = true →
  (∀ df1, price_filter min_price max_price df = Ok df1 → rows df1 = []) ∧
  (∀ parse epoch out,
     clean parse epoch min_price max_price df = Ok out → rows out = []) ∧
  ("price" ∈ columns df →
   Forall (fun r => is_num (cell r.2 "price") = true) (rows df) →
   price_filter min_price max_price df
   = Ok {| columns := columns df; rows := [] |}) ∧
  (Forall (fun c => c ∈ columns df)
          ["price"; "last_review"; "longitude"; "latitude"] →
   Forall (fun r => is_num (cell r.2 "price") = true) (rows df) →
   ∀ parse epoch,
     clean parse epoch min_price max_price df
     = Ok {| columns := columns df; rows := [] |}).
Proof.
  intros Hlt.
  assert (∀ x, ((min_price <=? x) && (x <=? max_price))%float = false)
    as Hnone by (intros x; by apply FloatOrder.empty_interval).
  split; [|split; [|split]].
  - intros df1 [_ ->]%price_filter_rows. by apply price_filter_none.
  - intros parse epoch out. by apply clean_none.
  - by apply price_filter_header_only.
  - intros Hcols Hnum parse epoch. by apply clean_header_only.
Qed.

Lemma clean_inverted_bounds_witness :
  (10 <? 100)%float = true ∧
  price_filter 100 10 Sample.listings
  = Ok {| columns := Sample.header; rows := [] |} ∧
  clean Sample.iso_date Sample.no_epoch 100 10 Sample.listings
  = Ok {| columns := Sample.header; rows := [] |}.
Proof.
  assert ((10 <? 100)%float = true) as Hlt by (vm_compute; reflexivity).
  assert (Forall (fun r : Z * record => is_num (cell r.2 "price") = true)
                 (rows Sample.listings)) as Hnum
    by (cbn; repeat constructor).
  split; [exact Hlt|].
  destruct (clean_inverted_bounds 100 10 Sample.listings Hlt)
    as (_ & _ & Hprice & Hclean).
  split.
  - apply Hprice; [cbn; left | exact Hnum].
  - apply Hclean; [cbn; repeat constructor | exact Hnum].
Defined.




(** ** Filtering twice *)

Lemma within_is_num (lo hi : float) (v : value) :
  within lo hi v = true → is_num v = true.
Proof. by destruct v. Qed.

Lemma forallb_is_num_cells (P : Z * record → Prop) (c : string)
    (l : list (Z * record)) :
  (∀ r, P r → is_num (cell r.2 c) = true) →
  Forall P l →
  forallb is_num (map (fun r => cell r.2 c) l) = true.
Proof.
  intros HP. induction 1 as [|r l Hr _ IH]; [reflexivity|].
  cbn. by rewrite (HP r Hr), IH.
Qed.

Lemma filter_all {A : Type} (P : A → Prop) `{!∀ x, Decision (P x)}
    (l : list A) :
  Forall P l → filter P l = l.
Proof.
  induction 1 as [|x l Hx _ IH]; [reflexivity|].
  by rewrite filter_cons_True, IH.
Qed.

Lemma Forall_filter_self {A : Type} (P : A → Prop) `{!∀ x, Decision (P x)}
    (l : list A) :
  Forall P (filter P l).
Proof.
  apply Forall_forall. by intros x [? _]%list_elem_of_filter.
Qed.

(** What the two filters return, when they return. *)
Lemma combined_filter_Ok (lo hi : float) (df out : DataFrame) :
  combined_filter lo hi df = Ok out →
  columns out = columns df ∧
  rows out = filter (kept lo hi) (rows df) ∧
  "price" ∈ columns df ∧ "longitude" ∈ columns df ∧
  "latitude" ∈ columns df.
Proof.
  unfold combined_filter. intros (df1 & H1 & H2)%bind_Ok.
  rewrite price_filter_eq in H1. rewrite bbox_filter_eq in H2.
  repeat (case_match; try discriminate).
  injection H1 as <-. injection H2 as <-. cbn in *.
  repeat split; try done.
  rewrite list_filter_filter. apply list_filter_iff.
  intros r. unfold kept. tauto.
Qed.

(** A table whose rows all pass a filter is returned by it as it is. *)
Lemma price_filter_fixed (lo hi : float) (df : DataFrame) :
  "price" ∈ columns df →
  Forall (price_ok lo hi) (rows df) →
  price_filter lo hi df = Ok df.
Proof.
  intros Hp Hall.
  rewrite price_filter_eq, decide_True by exact Hp.
  rewrite (forallb_is_num_cells (price_ok lo hi)); [|
    intros r; apply within_is_num | exact Hall].
  rewrite orb_true_r, filter_all by exact Hall. by destruct df.
Qed.

Lemma bbox_filter_fixed (df : DataFrame) :
  "longitude" ∈ columns df → "latitude" ∈ columns df →
  Forall in_bbox (rows df) →
  bbox_filter df = Ok df.
Proof.
  intros Hlon Hlat Hall.
  rewrite bbox_filter_eq, decide_True by exact Hlon.
  rewrite (forallb_is_num_cells in_bbox); [|
    intros r [H _]%andb_true_iff; by eapply within_is_num | exact Hall].
  rewrite decide_True by exact Hlat.
  rewrite (forallb_is_num_cells in_bbox); [|
    intros r [_ H]%andb_true_iff; by eapply within_is_num | exact Hall].
  rewrite filter_all by exact Hall. by destruct df.
Qed.

Lemma combined_filter_fixed (lo hi : float) (df : DataFrame) :
  "price" ∈ columns df → "longitude" ∈ columns df →
  "latitude" ∈ columns df →
  Forall (kept lo hi) (rows df) →
  combined_filter lo hi df = Ok df.
Proof.
  intros Hp Hlon Hlat Hall. unfold combined_filter.
  rewrite price_filter_fixed; [| exact Hp |
    eapply Forall_impl; [exact Hall|]; by intros r [? _]].
  cbn. apply bbox_filter_fixed; [exact Hlon | exact Hlat |].
  eapply Forall_impl; [exact Hall|]. by intros r [_ ?].
Qed.

Section Twice.

Context (parse : string -> result (option Z)).
Context (epoch : value -> result (option Z)).

(** Converting what [pd.to_datetime] returned changes nothing. *)
Lemma to_datetime_scalar_again (v v' : value) :
  to_datetime_scalar parse epoch v = Ok v' →
  to_datetime_scalar parse epoch v' = Ok v'.
Proof.
  assert (∀ m : result (option Z),
            (t ← m; mret (datetime t)) = Ok v' →
            to_datetime_scalar parse epoch v' = Ok v') as Hbind.
  { intros m ([t|] & _ & [= <-])%bind_Ok; reflexivity. }
  destruct v as [n|x|s|ns|]; cbn.
  - apply Hbind.
  - destruct (is_nan x); [by intros [= <-] | apply Hbind].
  - apply Hbind.
  - by intros [= <-].
  - by intros [= <-].
Qed.

Lemma convert_last_review_fixed (df : DataFrame) :
  "last_review" ∈ columns df →
  Forall (review_converted parse epoch) (rows df) →
  convert_last_review parse epoch df = Ok df.
Proof.
  intros Hc Hall. unfold convert_last_review, getitem.
  rewrite decide_True by exact Hc. cbn.
  assert (to_datetime parse epoch
            (map (fun r : Z * record => cell r.2 "last_review") (rows df))
          = Ok (map (fun r : Z * record => cell r.2 "last_review") (rows df)))
    as ->.
  { apply mapM_Ok. induction Hall as [|r l (v & Hv & Hconv) _ IH];
      constructor; [|exact IH].
    unfold cell. by rewrite Hv. }
  cbn. unfold setitem. rewrite decide_True by exact Hc.
  destruct df as [cols rs]. cbn in *. f_equal. f_equal.
  induction Hall as [|[l r] rs (v & Hv & _) _ IH]; [reflexivity|].
  cbn in *. rewrite IH. do 2 f_equal.
  apply insert_id. unfold cell. by rewrite Hv.
Qed.

Lemma clean_fixed (lo hi : float) (df : DataFrame) :
  Forall (fun c => c ∈ columns df)
         ["price"; "last_review"; "longitude"; "latitude"] →
  Forall (kept lo hi) (rows df) →
  Forall (review_converted parse epoch) (rows df) →
  clean parse epoch lo hi df = Ok df.
Proof.
  rewrite !Forall_cons. intros (Hp & Hrev & Hlon & Hlat & _) Hall Hconv.
  unfold clean.
  rewrite price_filter_fixed; [| exact Hp |
    eapply Forall_impl; [exact Hall|]; by intros r [? _]].
  cbn. rewrite convert_last_review_fixed by assumption.
  cbn. apply bbox_filter_fixed; [exact Hlon | exact Hlat |].
  eapply Forall_impl; [exact Hall|]. by intros r [_ ?].
Qed.

Lemma clean_twice (lo hi : float) (df : DataFrame) :
  clean parse epoch lo hi df ≫= clean parse epoch lo hi
  = clean parse epoch lo hi df.
Proof.
  destruct (clean parse epoch lo hi df) as [out|e] eqn:E; [|reflexivity].
  cbn. pose proof (clean_Ok_columns _ _ _ _ _ _ E) as Hcols.
  apply clean_rows in E as [Hc H].
  apply clean_fixed.
  - by rewrite Hc.
  - pose proof (Forall_filter_self (kept lo hi) (rows df)) as Hk.
    revert Hk. induction H as [|r r' l k Hd _ IH]; [constructor|].
    rewrite Forall_cons. intros [[Hp Hb] Hl].
    constructor; [|by apply IH].
    split; [by eapply dated_price_ok | by eapply dated_in_bbox].
  - induction H as [|r r' l k (_ & v & Hv & Er) _ IH]; constructor;
      [|exact IH].
    exists v. rewrite Er, lookup_insert_eq.
    split; [reflexivity | by eapply to_datetime_scalar_again].
Qed.

End Twice.

(** C3. Filtering what the two filters returned again, with the same
    bounds, returns the same table, and when the first pass raises there
    is nothing to filter again; the same holds of the whole cleaning, the
    conversion of the review dates included. *)
Theorem combined_filter_idempotent min_price max_price df :
  combined_filter min_price max_price df
    ≫= combined_filter min_price max_price
  = combined_filter min_price max_price df ∧
  ∀ parse epoch,
    clean parse epoch min_price max_price df
      ≫= clean parse epoch min_price max_price
    = clean parse epoch min_price max_price df.
Proof.
  split; [|intros parse epoch; apply clean_twice].
  destruct (combined_filter min_price max_price df) as [out|e] eqn:E;
    [|reflexivity].
  cbn. apply combined_filter_Ok in E as (Hc & Hr & Hp & Hlon & Hlat).
  apply combined_filter_fixed; rewrite ?Hc, ?Hr; try done.
  apply Forall_filter_self.
Qed.

(** ** Review dates that cannot be read *)

(** C6, as stated: a review date that cannot be converted does not always
    become a marker.  The second listing of [bad_dates] passes the price
    filter and carries the text "last week", which is no date;
    [pd.to_datetime] rejects it, the cleaning raises and returns no
    table. *)
Lemma unreadable_review_raises :
  ¬ (∀ parse epoch min_price max_price df l r s,
       (l, r) ∈ rows df →
       r !! "last_review" = Some (Str s) →
       (∀ ns, parse s ≠ Ok (Some ns)) →
       lies_in (cell r "price") min_price max_price →
       ∃ out, clean parse epoch min_price max_price df = Ok out ∧
              (in_bbox (l, r) →
               ∃ r', (l, r') ∈ rows out ∧
                     r' !! "last_review" = Some NaT)).
Proof.
  intros H.
  destruct (H Sample.iso_date Sample.no_epoch 10%float 100%float
              Sample.bad_dates 1%Z
              (Sample.listing 60 (-73.9) 40.7 (Str "last week"))
              "last week") as (out & Hout & _).
  - cbn. right. left.
  - vm_compute. reflexivity.
  - intros ns. vm_compute. discriminate.
  - eexists. split; [reflexivity|]. split; vm_compute; reflexivity.
  - vm_compute in Hout. discriminate Hout.
Qed.

(** C6, amended.  Of a row that passes the price filter and whose review
    date cannot be converted to a date: when [pd.to_datetime] reads the
    entry as the null (a missing entry, or a spelling of the null such as
    "NaT"), the row, if it is retained, carries the marker [NaT] in
    [last_review]; when [pd.to_datetime] rejects the entry, the cleaning
    raises and no table is returned. *)
Theorem unreadable_review_aborts parse epoch min_price max_price df l r :
  (l, r) ∈ rows df →
  lies_in (cell r "price") min_price max_price →
  (to_datetime_scalar parse epoch (cell r "last_review") = Ok NaT →
   ∀ out, clean parse epoch min_price max_price df = Ok out →
          lies_in (cell r "longitude") (-74.25) (-73.50) →
          lies_in (cell r "latitude") 40.5 41.2 →
          (l, <["last_review" := NaT]> r) ∈ rows out) ∧
  (∀ e, to_datetime_scalar parse epoch (cell r "last_review") = Raise e →
        ∃ e', clean parse epoch min_price max_price df = Raise e').
Proof.
  intros Hin Hp. split.
  - intros Hnull out Hclean Hlon Hlat.
    destruct (clean_row_image _ _ _ _ _ _ _ _ Hclean Hin)
      as (r' & Hout & _ & v & Hv & E); [by repeat split|].
    cbn in Hv, E. subst r'. rewrite Hnull in Hv.
    by injection Hv as <-.
  - intros e He.
    destruct (clean parse epoch min_price max_price df) as [out|e'] eqn:E;
      [exfalso | by exists e'].
    unfold clean in E.
    apply bind_Ok in E as (df1 & H1 & E).
    apply bind_Ok in E as (df2 & H2 & _).
    apply price_filter_rows in H1 as [_ H1].
    apply convert_last_review_Ok in H2 as [_ H2].
    assert ((l, r) ∈ rows df1) as Hin1.
    { rewrite H1. apply list_elem_of_filter. split; [|exact Hin].
      unfold price_ok. by apply within_lies_in. }
    destruct (Forall2_elem_of_l _ _ _ _ H2 Hin1)
      as (r' & _ & _ & v & Hv & _).
    cbn in Hv. by rewrite He in Hv.
Qed.

Lemma unreadable_review_aborts_witness :
  (1%Z, <["last_review" := NaT]>
          (Sample.listing 60 (-73.9) 40.7 (Str "NaT")))
    ∈ rows {| columns := Sample.header;
              rows := [ (0%Z, Sample.listing 50 (-73.9) 40.7
                                (Timestamp 1556668800000000000));
                        (1%Z, Sample.listing 60 (-73.9) 40.7 NaT) ] |} ∧
  ∃ e', clean Sample.iso_date Sample.no_epoch 10 100 Sample.bad_dates
        = Raise e'.
Proof.
  split.
  - destruct (unreadable_review_aborts Sample.iso_date Sample.no_epoch
                10 100 Sample.null_dates 1
                (Sample.listing 60 (-73.9) 40.7 (Str "NaT")))
      as [Hnull _].
    + cbn. right. left.
    + eexists. split; [reflexivity|]. split; vm_compute; reflexivity.
    + apply Hnull.
      * vm_compute. reflexivity.
      * vm_compute. reflexivity.
      * eexists. split; [reflexivity|]. split; vm_compute; reflexivity.
      * eexists. split; [reflexivity|]. split; vm_compute; reflexivity.
  - destruct (unreadable_review_aborts Sample.iso_date Sample.no_epoch
                10 100 Sample.bad_dates 1
                (Sample.listing 60 (-73.9) 40.7 (Str "last week")))
      as [_ Hraise].
    + cbn. right. left.
    + eexists. split; [reflexivity|]. split; vm_compute; reflexivity.
    + apply (Hraise (DateParseError "last week")).
      vm_compute. reflexivity.
Defined.
(** ** The run *)

Section RunFacts.

Context (B : backend) (args : Args).

(** The run, step by step: each call either raises, and the run ends
    there with the world as it then is, or hands over to the next. *)
Lemma go_function_steps (w : world) :
  go_function B args w =
  match init B with
  | Raise e => (Raise e, w)
  | Ok _ =>
    match use_artifact B (input_artifact args) with
    | Raise e => (Raise e, w)
    | Ok (path, content) =>
      let w1 := with_file path content w in
      match parse_csv B content with
      | Raise e => (Raise e, w1)
      | Ok df =>
        match clean (parse_datetime B) (from_epoch B)
                    (min_price args) (max_price args) df with
        | Raise e => (Raise e, w1)
        | Ok out =>
          let w2 := with_file (output_artifact args) (file_of B out) w1 in
          if writable B (output_artifact args) then
            if valid_artifact B (output_artifact args) (output_type args)
            then
              if upload B (artifact_of B args out) then
                (Ok (), {| disk := delete (output_artifact args) (disk w2);
                           logged := artifact_of B args out :: logged w |})
              else (Raise (CommError (output_artifact args)), w2)
            else (Raise (ValueError (output_artifact args)), w2)
          else (Raise (OSError (output_artifact args)), w1)
        end
      end
    end
  end.
Proof.
  unfold artifact_of, file_of, with_file.
  unfold go_function, artifact_file, read_csv, to_csv_file, Artifact,
    add_file, log_artifact, os_remove, write_file, lift, mbind, IO_bind,
    mret, IO_ret.
  destruct (init B) as [[]|e]; [|reflexivity].
  destruct (use_artifact B (input_artifact args)) as [[path content]|e];
    [|reflexivity].
  cbn -[to_csv]. rewrite lookup_insert_eq.
  destruct (parse_csv B content) as [df|e]; [|reflexivity].
  destruct (clean _ _ _ _ df) as [out|e]; [|reflexivity].
  destruct (writable B (output_artifact args)); [|reflexivity].
  cbn -[to_csv].
  destruct (valid_artifact B (output_artifact args) (output_type args));
    [|reflexivity].
  cbn -[to_csv]. rewrite lookup_insert_eq. cbn -[to_csv].
  destruct (upload B _); [|reflexivity].
  cbn -[to_csv]. rewrite lookup_insert_eq. reflexivity.
Qed.

(** C7. When a run succeeds, the file of the artifact it has logged is
    the cleaned table written out: first the header, which is the list
    of its columns, then one line per row in order, each line holding
    the printed cells of the row under those columns and nothing else:
    no line starts with an index label. *)
Theorem logged_file_layout (w w' : world) :
  go_function B args w = (Ok (), w') →
  ∃ path content df out,
    use_artifact B (input_artifact args) = Ok (path, content) ∧
    parse_csv B content = Ok df ∧
    clean (parse_datetime B) (from_epoch B)
          (min_price args) (max_price args) df = Ok out ∧
    ∃ a, logged w' = a :: logged w ∧
         wandb.files a =
           [(output_artifact args,
             columns out ::
             map (fun r => map (fun c => repr B (cell r.2 c)) (columns out))
                 (rows out))] ∧
         Forall (fun line => length line = length (columns out))
                (file_of B out).
Proof.
  rewrite go_function_steps.
  destruct (init B) as [[]|e]; [|discriminate].
  destruct (use_artifact B (input_artifact args))
    as [[path content]|e] eqn:Huse; [|discriminate].
  cbn zeta.
  destruct (parse_csv B content) as [df|e] eqn:Hparse; [|discriminate].
  destruct (clean _ _ _ _ df) as [out|e] eqn:Hclean; [|discriminate].
  destruct (writable B (output_artifact args)); [|discriminate].
  destruct (valid_artifact B _ _); [|discriminate].
  destruct (upload B (artifact_of B args out)); [|discriminate].
  intros [= <-]. exists path, content, df, out.
  do 3 (split; [reflexivity || assumption|]).
  exists (artifact_of B args out). cbn -[file_of].
  do 2 (split; [reflexivity|]).
  unfold file_of, to_csv, csv_header, csv_line. cbn.
  constructor; [reflexivity|].
  apply Forall_forall. intros line Hline.
  apply list_elem_of_In, in_map_iff in Hline as (r & <- & _).
  apply length_map.
Qed.

End RunFacts.

Lemma logged_file_layout_witness :
  let B := Sample.service Sample.listings true true in
  let args := Sample.args 10 100 in
  let w' := {| disk := {[ "artifacts/sample.csv" := Sample.raw ]};
               logged := [artifact_of B args Sample.cleaned] |} in
  go_function B args Sample.start = (Ok (), w') ∧
  ∃ path content df out,
    use_artifact B (input_artifact args) = Ok (path, content) ∧
    parse_csv B content = Ok df ∧
    clean (parse_datetime B) (from_epoch B)
          (min_price args) (max_price args) df = Ok out ∧
    ∃ a, logged w' = a :: logged Sample.start ∧
         wandb.files a =
           [(output_artifact args,
             columns out ::
             map (fun r => map (fun c => repr B (cell r.2 c)) (columns out))
                 (rows out))] ∧
         Forall (fun line => length line = length (columns out))
                (file_of B out).
Proof.
  cbn zeta. split.
  - vm_compute. reflexivity.
  - apply (logged_file_layout (Sample.service Sample.listings true true)
             (Sample.args 10 100) Sample.start).
    vm_compute. reflexivity.
Defined.

(** ** Failures *)

Lemma with_file_keeps (path : string) (content : csv) (w : world) p :
  is_Some (disk w !! p) → is_Some (disk (with_file path content w) !! p).
Proof. intros H. cbn. apply lookup_insert_is_Some'. by right. Qed.

Section Atomic.

Context (B : backend) (args : Args) (w : world).

(** A run that raises has registered nothing and removed no file. *)
Lemma go_function_failure e w' :
  go_function B args w = (Raise e, w') →
  logged w' = logged w ∧
  ∀ p, is_Some (disk w !! p) → is_Some (disk w' !! p).
Proof.
  rewrite go_function_steps.
  repeat (case_match; try discriminate); cbn zeta; intros [= <- <-];
    (split; [reflexivity|]); intros p Hp;
    auto using with_file_keeps.
Qed.

(** A run that returns has registered the artifact, and the file it
    wrote is gone. *)
Lemma go_function_success w' :
  go_function B args w = (Ok (), w') →
  (∃ out, logged w' = artifact_of B args out :: logged w) ∧
  disk w' !! output_artifact args = None.
Proof.
  rewrite go_function_steps.
  repeat (case_match; try discriminate); cbn zeta; intros [= <-].
  split; [by eexists|]. apply lookup_delete_eq.
Qed.

End Atomic.

(** C8. The run publishes all or nothing.  A run that raises has
    registered no artifact and removed no file; a run that returns has
    registered the artifact and the file it wrote is gone.  An exception
    raised by a step before the registration (the start of the run, the
    resolution of the input artifact, the reading of the table, the
    cleaning, which raises when one of the four columns is missing, the
    writing of the file, the making of the artifact) is the outcome of the
    run; when the artifact cannot be made, or when the registration itself
    raises, nothing is registered and the written file is still on the
    disk. *)
Theorem go_function_atomic (B : backend) (args : Args) (w : world) :
  (∀ e w', go_function B args w = (Raise e, w') →
     logged w' = logged w ∧
     ∀ p, is_Some (disk w !! p) → is_Some (disk w' !! p)) ∧
  (∀ w', go_function B args w = (Ok (), w') →
     (∃ out, logged w' = artifact_of B args out :: logged w) ∧
     disk w' !! output_artifact args = None) ∧
  (∀ e, init B = Raise e → go_function B args w = (Raise e, w)) ∧
  (∀ e, init B = Ok () →
        use_artifact B (input_artifact args) = Raise e →
        go_function B args w = (Raise e, w)) ∧
  (∀ path content,
     init B = Ok () →
     use_artifact B (input_artifact args) = Ok (path, content) →
     let w1 := with_file path content w in
     (∀ e, parse_csv B content = Raise e →
           go_function B args w = (Raise e, w1)) ∧
     (∀ df, parse_csv B content = Ok df →
        (∀ e, clean (parse_datetime B) (from_epoch B)
                    (min_price args) (max_price args) df = Raise e →
              go_function B args w = (Raise e, w1)) ∧
        (∀ c, c ∈ ["price"; "last_review"; "longitude"; "latitude"] →
              c ∉ columns df →
              ∃ e, go_function B args w = (Raise e, w1)) ∧
        (∀ out, clean (parse_datetime B) (from_epoch B)
                      (min_price args) (max_price args) df = Ok out →
           (writable B (output_artifact args) = false →
            go_function B args w
            = (Raise (OSError (output_artifact args)), w1)) ∧
           (writable B (output_artifact args) = true →
            valid_artifact B (output_artifact args) (output_type args)
            = false →
            let w2 := with_file (output_artifact args) (file_of B out) w1 in
            go_function B args w
            = (Raise (ValueError (output_artifact args)), w2) ∧
            logged w2 = logged w ∧
            disk w2 !! output_artifact args = Some (file_of B out)) ∧
           (writable B (output_artifact args) = true →
            valid_artifact B (output_artifact args) (output_type args)
            = true →
            upload B (artifact_of B args out) = false →
            let w2 := with_file (output_artifact args) (file_of B out) w1 in
            go_function B args w
            = (Raise (CommError (output_artifact args)), w2) ∧
            logged w2 = logged w ∧
            disk w2 !! output_artifact args = Some (file_of B out))))).
Proof.
  split; [apply go_function_failure|].
  split; [apply go_function_success|].
  split; [intros e H; by rewrite go_function_steps, H|].
  split; [intros e H1 H2; by rewrite go_function_steps, H1, H2|].
  intros path content Hinit Huse w1.
  split; [intros e H; by rewrite go_function_steps, Hinit, Huse, H|].
  intros df Hparse.
  split; [intros e H;
          by rewrite go_function_steps, Hinit, Huse; cbn zeta;
             rewrite Hparse, H|].
  split.
  { intros c Hc Hmiss.
    destruct (clean_missing_column (parse_datetime B) (from_epoch B)
                (min_price args) (max_price args) df c Hc Hmiss) as [e He].
    exists e. rewrite go_function_steps, Hinit, Huse. cbn zeta.
    by rewrite Hparse, He. }
  intros out Hclean. split; [|split].
  - intros Hw. rewrite go_function_steps, Hinit, Huse. cbn zeta.
    by rewrite Hparse, Hclean, Hw.
  - intros Hw Hv w2. split; [|split].
    + rewrite go_function_steps, Hinit, Huse. cbn zeta.
      by rewrite Hparse, Hclean, Hw, Hv.
    + reflexivity.
    + apply lookup_insert_eq.
  - intros Hw Hv Hup w2. split; [|split].
    + rewrite go_function_steps, Hinit, Huse. cbn zeta.
      by rewrite Hparse, Hclean, Hw, Hv, Hup.
    + reflexivity.
    + apply lookup_insert_eq.
Qed.

Lemma go_function_atomic_witness :
  let B := Sample.service Sample.listings true false in
  let args := Sample.args 10 100 in
  let w1 := with_file "artifacts/sample.csv" Sample.raw Sample.start in
  let w2 := with_file "clean_sample.csv" (file_of B Sample.cleaned) w1 in
  go_function B args Sample.start
  = (Raise (CommError "clean_sample.csv"), w2) ∧
  logged w2 = [] ∧
  disk w2 !! "clean_sample.csv" = Some (file_of B Sample.cleaned).
Proof.
  cbn zeta.
  pose proof (go_function_atomic
                (Sample.service Sample.listings true false)
                (Sample.args 10 100) Sample.start)
    as (_ & _ & _ & _ & H).
  destruct (H "artifacts/sample.csv" Sample.raw) as (_ & H');
    [reflexivity | reflexivity |].
  destruct (H' Sample.listings) as (_ & _ & H''); [reflexivity|].
  destruct (H'' Sample.cleaned) as (_ & _ & Hup);
    [vm_compute; reflexivity|].
  apply Hup; reflexivity.
Defined.

(** ** When the cleaning returns *)

Lemma mapM_total {A B : Type} (f : A → result B) (l : list A) :
  Forall (fun x => ∃ y, f x = Ok y) l → ∃ k, mapM f l = Ok k.
Proof.
  induction 1 as [|x l [y Hy] _ [k Hk]]; [by exists []|].
  exists (y :: k). rewrite mapM_cons, Hy. cbn. by rewrite Hk.
Qed.

Lemma dated_cell parse epoch r r' c :
  dated parse epoch r r' → c ≠ "last_review" → cell r'.2 c = cell r.2 c.
Proof.
  intros (_ & v & _ & E) Hc. rewrite E. by apply cell_insert_ne.
Qed.

Lemma Forall2_dated_cells parse epoch (c : string) l k :
  c ≠ "last_review" →
  Forall2 (dated parse epoch) l k →
  map (fun r : Z * record => cell r.2 c) k
  = map (fun r : Z * record => cell r.2 c) l.
Proof.
  intros Hc. induction 1 as [|r r' l k Hd _ IH]; [reflexivity|].
  cbn. by rewrite IH, (dated_cell _ _ _ _ _ Hd Hc).
Qed.

Lemma Forall2_dated_convertible parse epoch l k :
  Forall2 (dated parse epoch) l k →
  Forall (fun r : Z * record =>
            ∃ v, to_datetime_scalar parse epoch (cell r.2 "last_review")
                 = Ok v) l.
Proof.
  induction 1 as [|r r' l k (_ & v & Hv & _) _ IH]; constructor;
    [by exists v | exact IH].
Qed.

(** When every row converts, line 44 returns. *)
Lemma convert_last_review_total parse epoch (df : DataFrame) :
  "last_review" ∈ columns df →
  Forall (fun r : Z * record =>
            ∃ v, to_datetime_scalar parse epoch (cell r.2 "last_review")
                 = Ok v) (rows df) →
  ∃ df', convert_last_review parse epoch df = Ok df'.
Proof.
  intros Hrev Hconv. unfold convert_last_review, getitem.
  rewrite decide_True by exact Hrev. cbn.
  destruct (mapM_total (to_datetime_scalar parse epoch)
              (map (fun r : Z * record => cell r.2 "last_review")
                   (rows df))) as [k Hk].
  { apply Forall_forall. intros v Hv.
    apply list_elem_of_In, in_map_iff in Hv as (r & <- & Hr).
    rewrite Forall_forall in Hconv. apply Hconv.
    by apply list_elem_of_In. }
  unfold to_datetime. rewrite Hk. by eexists.
Qed.

(** X1. The cleaning returns a table exactly when the four columns it
    reads are in the header, every price cell is a number unless both
    bounds are NaN, and every row the price filter keeps has a review date
    that [pd.to_datetime] accepts and numbers for coordinates.  Rows the
    price filter drops are looked at for their price only. *)
Theorem clean_returns_iff parse epoch min_price max_price df :
  (∃ out, clean parse epoch min_price max_price df = Ok out) ↔
  Forall (fun c => c ∈ columns df)
         ["price"; "last_review"; "longitude"; "latitude"] ∧
  (is_nan min_price = true ∧ is_nan max_price = true ∨
   Forall (fun r => is_num (cell r.2 "price") = true) (rows df)) ∧
  Forall (fun r =>
            (∃ v, to_datetime_scalar parse epoch (cell r.2 "last_review")
                  = Ok v) ∧
            is_num (cell r.2 "longitude") = true ∧
            is_num (cell r.2 "latitude") = true)
         (filter (price_ok min_price max_price) (rows df)).
Proof.
  split.
  - intros [out Hclean].
    split; [by eapply clean_Ok_columns|].
    unfold clean in Hclean.
    apply bind_Ok in Hclean as (df1 & H1 & H).
    apply bind_Ok in H as (df2 & H2 & H3).
    apply convert_last_review_Ok in H2 as [_ H2].
    rewrite price_filter_eq in H1.
    destruct (decide ("price" ∈ columns df)); [|discriminate].
    destruct (_ || _) eqn:Hcond; [|discriminate].
    injection H1 as <-. cbn in H2.
    rewrite bbox_filter_eq in H3.
    rewrite (Forall2_dated_cells _ _ "longitude" _ _) in H3
      by (done || exact H2).
    rewrite (Forall2_dated_cells _ _ "latitude" _ _) in H3
      by (done || exact H2).
    destruct (decide ("longitude" ∈ columns df2)); [|discriminate].
    destruct (forallb is_num (map _ _)) eqn:Hlon in H3; [|discriminate].
    destruct (decide ("latitude" ∈ columns df2)); [|discriminate].
    destruct (forallb is_num (map _ _)) eqn:Hlat in H3; [|discriminate].
    split.
    + apply orb_true_iff in Hcond as [[? ?]%andb_true_iff|Hnum];
        [by left | right; by apply forallb_is_num_Forall].
    + pose proof (Forall2_dated_convertible _ _ _ _ H2) as Hconv.
      apply forallb_is_num_Forall in Hlon, Hlat.
      rewrite Forall_forall in *. naive_solver.
  - rewrite !Forall_cons.
    intros ((Hp & Hrev & Hlon & Hlat & _) & Hnum & Hkept).
    unfold clean. rewrite price_filter_eq, decide_True by exact Hp.
    assert ((is_nan min_price && is_nan max_price)
            || forallb is_num
                 (map (fun r : Z * record => cell r.2 "price") (rows df))
            = true) as ->.
    { apply orb_true_iff. destruct Hnum as [[-> ->]|Hnum]; [by left|].
      right. by apply forallb_is_num_Forall. }
    cbn.
    set (df1 := {| columns := columns df;
                   rows := filter (price_ok min_price max_price)
                                  (rows df) |}).
    destruct (convert_last_review_total parse epoch df1) as [df2 H2];
      [exact Hrev | |].
    { eapply Forall_impl; [exact Hkept|]. by intros r (? & _). }
    rewrite H2. cbn.
    apply convert_last_review_Ok in H2 as [Hc2 H2]. cbn in Hc2, H2.
    rewrite bbox_filter_eq, Hc2.
    rewrite decide_True by exact Hlon.
    rewrite (Forall2_dated_cells _ _ "longitude" _ _) by (done || exact H2).
    rewrite (Forall2_dated_cells _ _ "latitude" _ _) by (done || exact H2).
    rewrite (proj2 (forallb_is_num_Forall _ _)); [|
      eapply Forall_impl; [exact Hkept|]; by intros r (_ & ? & _)].
    rewrite decide_True by exact Hlat.
    rewrite (proj2 (forallb_is_num_Forall _ _)); [|
      eapply Forall_impl; [exact Hkept|]; by intros r (_ & _ & ?)].
    by eexists.
Qed.

(** ** Which exception *)

(** On a table whose price cells are numbers and whose review dates
    convert, the first two steps go through. *)
Lemma clean_first_steps parse epoch lo hi df :
  "price" ∈ columns df → "last_review" ∈ columns df →
  Forall (fun r => is_num (cell r.2 "price") = true) (rows df) →
  Forall (fun r => ∃ v, to_datetime_scalar parse epoch
                          (cell r.2 "last_review") = Ok v) (rows df) →
  ∃ df2,
    price_filter lo hi df ≫= convert_last_review parse epoch = Ok df2 ∧
    columns df2 = columns df ∧
    Forall2 (dated parse epoch) (filter (price_ok lo hi) (rows df))
            (rows df2).
Proof.
  intros Hp Hrev Hnum Hconv.
  rewrite price_filter_eq, decide_True by exact Hp.
  rewrite (proj2 (forallb_is_num_Forall _ _)) by exact Hnum.
  rewrite orb_true_r. cbn.
  set (df1 := {| columns := columns df;
                 rows := filter (price_ok lo hi) (rows df) |}).
  destruct (convert_last_review_total parse epoch df1) as [df2 H2];
    [exact Hrev | |].
  { apply Forall_forall. intros r [_ Hr]%list_elem_of_filter.
    rewrite Forall_forall in Hconv. by apply Hconv. }
  exists df2. split; [exact H2|].
  by apply convert_last_review_Ok in H2.
Qed.

(** X2. On a table whose cells are otherwise in order (numbers for
    prices and coordinates, review dates that convert), a missing column
    raises [KeyError] with the name of the first column, in the order
    price, last_review, longitude, latitude, that the header lacks. *)
Theorem clean_first_missing_column parse epoch min_price max_price df
    pre c post :
  ["price"; "last_review"; "longitude"; "latitude"]
  = (pre ++ c :: post)%list →
  Forall (fun c' => c' ∈ columns df) pre →
  c ∉ columns df →
  Forall (fun r =>
            is_num (cell r.2 "price") = true ∧
            (∃ v, to_datetime_scalar parse epoch (cell r.2 "last_review")
                  = Ok v) ∧
            is_num (cell r.2 "longitude") = true ∧
            is_num (cell r.2 "latitude") = true) (rows df) →
  clean parse epoch min_price max_price df = Raise (KeyError c).
Proof.
  intros Hsplit Hpre Hc Hrows.
  assert (Forall (fun r => is_num (cell r.2 "price") = true) (rows df))
    as Hnum by (eapply Forall_impl; [exact Hrows|]; by intros r (? & _)).
  assert (Forall (fun r => ∃ v, to_datetime_scalar parse epoch
                                  (cell r.2 "last_review") = Ok v) (rows df))
    as Hconv by (eapply Forall_impl; [exact Hrows|]; by intros r (_ & ? & _)).
  assert (Forall (fun r => is_num (cell r.2 "longitude") = true)
                 (filter (price_ok min_price max_price) (rows df))) as Hlon.
  { apply Forall_forall. intros r [_ Hr]%list_elem_of_filter.
    rewrite Forall_forall in Hrows. by apply Hrows. }
  unfold clean.
  destruct pre as [|c1 [|c2 [|c3 [|c4 pre]]]]; simplify_eq/=.
  - rewrite price_filter_eq. by rewrite decide_False.
  - apply Forall_cons in Hpre as [Hp _].
    rewrite price_filter_eq, decide_True by exact Hp.
    rewrite (proj2 (forallb_is_num_Forall _ _)) by exact Hnum.
    rewrite orb_true_r. cbn.
    unfold convert_last_review, getitem. cbn.
    by rewrite decide_False.
  - rewrite !Forall_cons in Hpre. destruct Hpre as (Hp & Hrev & _).
    destruct (clean_first_steps parse epoch min_price max_price df
                Hp Hrev Hnum Hconv) as (df2 & H2 & Hc2 & _).
    apply bind_Ok in H2 as (df1 & -> & H2). cbn. rewrite H2. cbn.
    rewrite bbox_filter_eq, Hc2. by rewrite decide_False.
  - rewrite !Forall_cons in Hpre. destruct Hpre as (Hp & Hrev & Hl & _).
    destruct (clean_first_steps parse epoch min_price max_price df
                Hp Hrev Hnum Hconv) as (df2 & H2 & Hc2 & Hd).
    apply bind_Ok in H2 as (df1 & -> & H2). cbn. rewrite H2. cbn.
    rewrite bbox_filter_eq, Hc2. rewrite decide_True by exact Hl.
    rewrite (Forall2_dated_cells _ _ "longitude" _ _) by (done || exact Hd).
    rewrite (proj2 (forallb_is_num_Forall _ _)) by exact Hlon.
    by rewrite decide_False.
  - by destruct pre.
Qed.

Lemma clean_first_missing_column_witness :
  let df := {| columns := ["price"; "last_review"; "latitude"];
               rows := rows Sample.listings |} in
  ["price"; "last_review"; "longitude"; "latitude"]
  = (["price"; "last_review"] ++ "longitude" :: ["latitude"])%list ∧
  clean Sample.iso_date Sample.no_epoch 10 100 df
  = Raise (KeyError "longitude").
Proof.
  cbn zeta. split; [reflexivity|].
  apply (clean_first_missing_column Sample.iso_date Sample.no_epoch 10 100
           _ ["price"; "last_review"] "longitude" ["latitude"]).
  - reflexivity.
  - repeat constructor.
  - cbn. intros H. repeat (apply elem_of_cons in H as [H|H]; [done|]).
    by apply elem_of_nil in H.
  - cbn. repeat constructor; eexists; vm_compute; reflexivity.
Defined.

(** X3. Unless both bounds are NaN, a price cell that is not a number (a
    text left in the column) makes the cleaning raise [TypeError],
    wherever the row is. *)
Theorem clean_text_price parse epoch min_price max_price df r :
  "price" ∈ columns df →
  r ∈ rows df →
  is_num (cell r.2 "price") = false →
  is_nan min_price = false ∨ is_nan max_price = false →
  clean parse epoch min_price max_price df = Raise TypeError.
Proof.
  intros Hp Hr Hnum Hnan. unfold clean.
  rewrite price_filter_eq, decide_True by exact Hp.
  assert (is_nan min_price && is_nan max_price = false) as ->.
  { destruct Hnan as [-> | ->]; [reflexivity | apply andb_false_r]. }
  cbn [orb].
  destruct (forallb is_num _) eqn:E; [|reflexivity].
  apply forallb_is_num_Forall in E. rewrite Forall_forall in E.
  specialize (E r Hr). congruence.
Qed.

Lemma clean_text_price_witness :
  let r := (7%Z, <["price" := Str "$50"]> (Sample.listing 0 (-73.9) 40.7 NaN))
  in
  let df := {| columns := Sample.header;
               rows := (rows Sample.listings ++ [r])%list |} in
  "price" ∈ columns df ∧ r ∈ rows df ∧
  is_num (cell r.2 "price") = false ∧
  (is_nan 10 = false ∨ is_nan 100 = false) ∧
  clean Sample.iso_date Sample.no_epoch 10 100 df = Raise TypeError.
Proof.
  cbn zeta.
  assert ("price" ∈ Sample.header) as Hp by (cbn; left).
  assert ((7%Z, <["price" := Str "$50"]>
                  (Sample.listing 0 (-73.9) 40.7 NaN))
            ∈ (rows Sample.listings
               ++ [(7%Z, <["price" := Str "$50"]>
                           (Sample.listing 0 (-73.9) 40.7 NaN))])%list)
    as Hr.
  { apply elem_of_app. right. left. }
  split; [exact Hp|]. split; [exact Hr|]. split; [vm_compute; reflexivity|].
  split; [left; vm_compute; reflexivity|].
  apply (clean_text_price Sample.iso_date Sample.no_epoch 10 100
           {| columns := Sample.header;
              rows := (rows Sample.listings
                       ++ [(7%Z, <["price" := Str "$50"]>
                                   (Sample.listing 0 (-73.9) 40.7 NaN))])%list
           |}
           (7%Z, <["price" := Str "$50"]>
                   (Sample.listing 0 (-73.9) 40.7 NaN)) Hp Hr).
  - vm_compute. reflexivity.
  - left. vm_compute. reflexivity.
Defined.

(** ** Missing values and degenerate bounds *)

Lemma lies_in_not_nan (v : value) (lo hi : float) :
  lies_in v lo hi → ∃ x, as_float v = Some x ∧ is_nan x = false.
Proof.
  intros (x & Hx & Hlo & _). exists x. split; [exact Hx|].
  by apply leb_not_nan in Hlo as [_ ?].
Qed.

(** X4. The table the cleaning returns has no missing price or
    coordinate: in every row the three cells hold numbers, and as binary64
    none of them is NaN, whatever the bounds. *)
Theorem clean_output_numbers parse epoch min_price max_price df out l r' c :
  clean parse epoch min_price max_price df = Ok out →
  (l, r') ∈ rows out →
  c ∈ ["price"; "longitude"; "latitude"] →
  ∃ x, as_float (cell r' c) = Some x ∧ is_nan x = false.
Proof.
  intros Hclean Hout Hc.
  destruct (clean_row_origin _ _ _ _ _ _ _ _ Hclean Hout)
    as (r & _ & (Hp & Hlon & Hlat) & Hd).
  assert (c ≠ "last_review") as Hne.
  { intros ->. repeat (apply elem_of_cons in Hc as [Hc|Hc]; [done|]).
    by apply elem_of_nil in Hc. }
  pose proof (dated_cell _ _ _ _ _ Hd Hne) as E. cbn in E. rewrite E.
  repeat (apply elem_of_cons in Hc as [->|Hc];
          [by eapply lies_in_not_nan|]).
  by apply elem_of_nil in Hc.
Qed.

Lemma clean_output_numbers_witness :
  clean Sample.iso_date Sample.no_epoch 10 100 Sample.listings
  = Ok Sample.cleaned ∧
  ∃ x, as_float (cell (Sample.listing 10 (-74.0) 40.6 NaT) "latitude")
       = Some x ∧
       is_nan x = false.
Proof.
  split; [vm_compute; reflexivity|].
  apply (clean_output_numbers Sample.iso_date Sample.no_epoch 10 100
           Sample.listings Sample.cleaned 3).
  - vm_compute. reflexivity.
  - cbn. right. left.
  - do 2 right. left.
Defined.

(** X5. When one of the bounds is NaN (the command line accepts the word
    for a float), no row passes the price filter, and a table the cleaning
    returns has no rows. *)
Theorem clean_nan_bound min_price max_price df :
  is_nan min_price = true ∨ is_nan max_price = true →
  (∀ df1, price_filter min_price max_price df = Ok df1 → rows df1 = []) ∧
  (∀ parse epoch out,
     clean parse epoch min_price max_price df = Ok out → rows out = []).
Proof.
  intros Hnan.
  assert (∀ x, ((min_price <=? x) && (x <=? max_price))%float = false)
    as Hnone.
  { intros x. destruct Hnan as [H|H].
    - by rewrite (FloatEdge.leb_nan_l _ x H).
    - rewrite (FloatEdge.leb_nan_r x _ H). apply andb_false_r. }
  split.
  - intros df1 [_ ->]%price_filter_rows. by apply price_filter_none.
  - intros parse epoch out. by apply clean_none.
Qed.

Lemma clean_nan_bound_witness :
  (is_nan 10 = true ∨ is_nan nan = true) ∧
  (∀ df1, price_filter 10 nan Sample.listings = Ok df1 → rows df1 = []) ∧
  (∀ parse epoch out,
     clean parse epoch 10 nan Sample.listings = Ok out → rows out = []).
Proof.
  split; [right; vm_compute; reflexivity|].
  apply (clean_nan_bound 10 nan Sample.listings).
  right. vm_compute. reflexivity.
Defined.

(** X6. With the bounds at minus and plus infinity the price filter keeps
    every row whose price is a number that, as binary64, is not NaN, and
    drops the rows whose price is missing. *)
Theorem price_filter_unbounded df df1 :
  price_filter neg_infinity infinity df = Ok df1 →
  rows df1 =
  filter (fun r => match as_float (cell r.2 "price") with
                   | Some x => negb (is_nan x)
                   | None => false
                   end = true)
         (rows df).
Proof.
  intros [_ ->]%price_filter_rows.
  apply list_filter_iff. intros r. unfold price_ok, within.
  destruct (as_float (cell r.2 "price")) as [x|]; try done.
  rewrite FloatEdge.neg_infinity_leb, FloatEdge.leb_infinity.
  by destruct (is_nan x).
Qed.

Lemma price_filter_unbounded_witness :
  price_filter neg_infinity infinity
    {| columns := Sample.header;
       rows := [(0%Z, Sample.listing 50 (-73.9) 40.7 NaN);
                (1%Z, Sample.listing nan (-73.9) 40.7 NaN)] |}
  = Ok {| columns := Sample.header;
          rows := [(0%Z, Sample.listing 50 (-73.9) 40.7 NaN)] |} ∧
  [(0%Z, Sample.listing 50 (-73.9) 40.7 NaN)] =
  filter (fun r => match as_float (cell r.2 "price") with
                   | Some x => negb (is_nan x)
                   | None => false
                   end = true)
         [(0%Z, Sample.listing 50 (-73.9) 40.7 NaN);
          (1%Z, Sample.listing nan (-73.9) 40.7 NaN)].
Proof.
  split; [vm_compute; reflexivity|].
  apply (price_filter_unbounded
           {| columns := Sample.header;
              rows := [(0%Z, Sample.listing 50 (-73.9) 40.7 NaN);
                       (1%Z, Sample.listing nan (-73.9) 40.7 NaN)] |}
           {| columns := Sample.header;
              rows := [(0%Z, Sample.listing 50 (-73.9) 40.7 NaN)] |}).
  vm_compute. reflexivity.
Defined.

(** ** How the filters compose *)

Lemma price_ok_is_num (lo hi : float) (l : list (Z * record)) :
  Forall (fun r => is_num (cell r.2 "price") = true)
         (filter (price_ok lo hi) l).
Proof.
  apply Forall_forall. intros r [Hr _]%list_elem_of_filter.
  by eapply within_is_num.
Qed.

(** X7. Filtering on a price interval and then on an interval inside it
    is filtering on the inner interval alone, exceptions included. *)
Theorem price_filter_nested lo hi lo' hi' df :
  (lo' <=? lo)%float = true →
  (hi <=? hi')%float = true →
  price_filter lo' hi' df ≫= price_filter lo hi = price_filter lo hi df.
Proof.
  intros Hlo Hhi.
  destruct (leb_not_nan _ _ Hlo) as [Hlo' Hlo0].
  rewrite !price_filter_eq, Hlo', Hlo0. cbn [andb orb].
  destruct (decide ("price" ∈ columns df)) as [Hp|Hp]; [|reflexivity].
  destruct (forallb is_num _); [|reflexivity].
  cbn. rewrite price_filter_eq, Hlo0. cbn. rewrite decide_True by exact Hp.
  rewrite (proj2 (forallb_is_num_Forall _ _)) by apply price_ok_is_num.
  do 2 f_equal. apply list_filter_filter_l.
  intros r. unfold price_ok, within.
  destruct (as_float (cell r.2 "price")) as [x|]; try done.
  intros [H1 H2]%andb_true_iff. apply andb_true_iff. split.
  - by apply FloatOrder.leb_trans with lo.
  - by apply FloatOrder.leb_trans with hi.
Qed.

Lemma price_filter_nested_witness :
  (0 <=? 10)%float = true ∧ (100 <=? 1000)%float = true ∧
  price_filter 0 1000 Sample.listings ≫= price_filter 10 100
  = price_filter 10 100 Sample.listings.
Proof.
  split; [vm_compute; reflexivity|]. split; [vm_compute; reflexivity|].
  apply (price_filter_nested 10 100 0 1000 Sample.listings);
    vm_compute; reflexivity.
Defined.

(** X8. The two filters can be applied in either order: when both orders
    return a table, it is the same table. *)
Theorem filters_commute min_price max_price df a b :
  price_filter min_price max_price df ≫= bbox_filter = Ok a →
  bbox_filter df ≫= price_filter min_price max_price = Ok b →
  a = b.
Proof.
  intros (df1 & H1 & H2)%bind_Ok (df2 & H3 & H4)%bind_Ok.
  rewrite price_filter_eq in H1, H4. rewrite bbox_filter_eq in H2, H3.
  repeat (case_match; try discriminate).
  simplify_eq/=. f_equal.
  rewrite !list_filter_filter. apply list_filter_iff. intros r. tauto.
Qed.

Lemma filters_commute_witness :
  let out := {| columns := Sample.header;
                rows := [ (0%Z, Sample.listing 50 (-73.9) 40.7
                                  (Str "2019-05-01"));
                          (3%Z, Sample.listing 10 (-74.0) 40.6 NaN);
                          (4%Z, Sample.listing 100 (-73.95) 41.2
                                  (Str "2019-07-08")) ] |} in
  price_filter 10 100 Sample.listings ≫= bbox_filter = Ok out ∧
  bbox_filter Sample.listings ≫= price_filter 10 100 = Ok out ∧
  out = out.
Proof.
  cbn zeta. split; [vm_compute; reflexivity|].
  split; [vm_compute; reflexivity|].
  apply (filters_commute 10 100 Sample.listings); vm_compute; reflexivity.
Defined.

Lemma on_bound_lies_in (lo hi x : float) :
  (lo <=? hi)%float = true →
  (x =? lo)%float = true ∨ (x =? hi)%float = true →
  lies_in (Num x) lo hi.
Proof.
  intros Hle Hb. exists x. split; [reflexivity|].
  destruct Hb as [[H1 H2]%FloatOrder.eqb_leb|[H1 H2]%FloatOrder.eqb_leb].
  - split; [exact H2|]. by apply FloatOrder.leb_trans with lo.
  - split; [|exact H1]. by apply FloatOrder.leb_trans with hi.
Qed.

(** X9. The bounding box is closed: a row within the price bounds whose
    longitude equals -74.25 or -73.50, or whose latitude equals 40.5 or
    41.2, the other coordinate being in its interval, is in the table the
    cleaning returns. *)
Theorem bbox_borders_inclusive parse epoch min_price max_price df out
    l r x y :
  clean parse epoch min_price max_price df = Ok out →
  (l, r) ∈ rows df →
  lies_in (cell r "price") min_price max_price →
  cell r "longitude" = Num x →
  cell r "latitude" = Num y →
  ((x =? -74.25)%float = true ∨ (x =? -73.50)%float = true) ∧
    lies_in (Num y) 40.5 41.2
  ∨ lies_in (Num x) (-74.25) (-73.50) ∧
    ((y =? 40.5)%float = true ∨ (y =? 41.2)%float = true) →
  ∃ r', (l, r') ∈ rows out ∧ same_but_review r r'.
Proof.
  intros Hclean Hin Hp Hx Hy Hborder.
  assert (lies_in (Num x) (-74.25) (-73.50) ∧ lies_in (Num y) 40.5 41.2)
    as [Hlon Hlat].
  { destruct Hborder as [[Hb Hlat]|[Hlon Hb]].
    - split; [|exact Hlat]. by apply on_bound_lies_in.
    - split; [exact Hlon|]. by apply on_bound_lies_in. }
  destruct (clean_row_image _ _ _ _ _ _ _ _ Hclean Hin) as (r' & ? & Hd).
  { unfold in_bounds. by rewrite Hx, Hy. }
  exists r'. split; [done|]. by apply dated_same_but_review in Hd.
Qed.

Lemma bbox_borders_inclusive_witness :
  clean Sample.iso_date Sample.no_epoch 10 100 Sample.listings
  = Ok Sample.cleaned ∧
  ∃ r', (4%Z, r') ∈ rows Sample.cleaned ∧
        same_but_review
          (Sample.listing 100 (-73.95) 41.2 (Str "2019-07-08")) r'.
Proof.
  split; [vm_compute; reflexivity|].
  apply (bbox_borders_inclusive Sample.iso_date Sample.no_epoch 10 100
           Sample.listings Sample.cleaned 4
           (Sample.listing 100 (-73.95) 41.2 (Str "2019-07-08"))
           (-73.95) 41.2).
  - vm_compute. reflexivity.
  - cbn. do 4 right. left.
  - eexists. split; [reflexivity|]. split; vm_compute; reflexivity.
  - vm_compute. reflexivity.
  - vm_compute. reflexivity.
  - right. split.
    + eexists. split; [reflexivity|]. split; vm_compute; reflexivity.
    + right. vm_compute. reflexivity.
Defined.

(** ** Labels and sizes *)

(** X10. The cleaning keeps the index as it is: it returns no more rows
    than it was given, exactly as many as the input has rows that pass the
    two filters (price and coordinates compared as binary64 numbers), and
    labels that were distinct in the input are distinct in the output. *)
Theorem clean_index parse epoch min_price max_price df out :
  clean parse epoch min_price max_price df = Ok out →
  length (rows out) = length (filter (kept min_price max_price) (rows df)) ∧
  (length (rows out) ≤ length (rows df))%nat ∧
  (NoDup (rows df).*1 → NoDup (rows out).*1).
Proof.
  intros [_ H]%clean_rows.
  pose proof (Forall2_length _ _ _ H) as Hlen.
  split; [by rewrite Hlen|].
  split; [rewrite <- Hlen; apply length_filter|].
  intros Hnd.
  assert ((rows out).*1 = (filter (kept min_price max_price) (rows df)).*1)
    as ->.
  { clear Hlen. induction H as [|r r' l k [Hl _] _ IH]; [reflexivity|].
    cbn. by rewrite Hl, IH. }
  eapply sublist_NoDup; [exact Hnd|].
  apply (fmap_sublist fst), sublist_filter.
Qed.

Lemma clean_index_witness :
  clean Sample.iso_date Sample.no_epoch 10 100 Sample.listings
  = Ok Sample.cleaned ∧
  length (rows Sample.cleaned)
  = length (filter (kept 10 100) (rows Sample.listings)) ∧
  (length (rows Sample.cleaned) ≤ length (rows Sample.listings))%nat ∧
  (NoDup (rows Sample.listings).*1 → NoDup (rows Sample.cleaned).*1).
Proof.
  split; [vm_compute; reflexivity|].
  apply (clean_index Sample.iso_date Sample.no_epoch 10 100).
  vm_compute. reflexivity.
Defined.

(** ** Converting twice *)

(** X12. Converting the review dates of a frame whose review dates are
    already converted changes nothing: line 44 applied twice is line 44
    applied once, exceptions included. *)
Theorem convert_last_review_twice parse epoch df :
  convert_last_review parse epoch df ≫= convert_last_review parse epoch
  = convert_last_review parse epoch df.
Proof.
  destruct (convert_last_review parse epoch df) as [df'|e] eqn:E;
    [|reflexivity].
  cbn.
  assert ("last_review" ∈ columns df) as Hc.
  { unfold convert_last_review, getitem in E.
    by destruct (decide ("last_review" ∈ columns df)). }
  apply convert_last_review_Ok in E as [Hc' H].
  apply convert_last_review_fixed; [by rewrite Hc'|].
  induction H as [|r r' l k (_ & v & Hv & Er) _ IH]; constructor;
    [|exact IH].
  exists v. rewrite Er, lookup_insert_eq.
  split; [reflexivity | by eapply to_datetime_scalar_again].
Qed.

(** ** When a run returns *)


(** X14. Bounds in the wrong order do not make the run fail: on a table
    with the four columns and numbers for prices, when the collaborators
    do their part and the artifact's name is accepted, the run goes
    through and registers an artifact whose file is the header line
    alone. *)
Theorem inverted_bounds_publish_header (B : backend) (args : Args)
    (w : world) path content df :
  (max_price args <? min_price args)%float = true →
  init B = Ok () →
  use_artifact B (input_artifact args) = Ok (path, content) →
  parse_csv B content = Ok df →
  Forall (fun c => c ∈ columns df)
         ["price"; "last_review"; "longitude"; "latitude"] →
  Forall (fun r => is_num (cell r.2 "price") = true) (rows df) →
  writable B (output_artifact args) = true →
  valid_artifact B (output_artifact args) (output_type args) = true →
  (∀ a, upload B a = true) →
  ∃ w' a,
    go_function B args w = (Ok (), w') ∧
    logged w' = a :: logged w ∧
    wandb.files a = [(output_artifact args, [columns df])].
Proof.
  intros Hlt Hinit Huse Hparse Hcols Hnum Hw Hv Hup.
  set (out := {| columns := columns df; rows := [] |}).
  assert (clean (parse_datetime B) (from_epoch B)
                (min_price args) (max_price args) df = Ok out) as Hclean.
  { apply clean_header_only; [|exact Hcols|exact Hnum].
    intros x. by apply FloatOrder.empty_interval. }
  eexists _, (artifact_of B args out).
  rewrite go_function_steps, Hinit, Huse. cbn zeta.
  rewrite Hparse, Hclean, Hw, Hv, Hup. done.
Qed.

Lemma inverted_bounds_publish_header_witness :
  ∃ w' a,
    go_function (Sample.service Sample.listings true true)
                (Sample.args 100 10) Sample.start = (Ok (), w') ∧
    logged w' = a :: logged Sample.start ∧
    wandb.files a = [("clean_sample.csv", [Sample.header])].
Proof.
  apply (inverted_bounds_publish_header
           (Sample.service Sample.listings true true)
           (Sample.args 100 10) Sample.start
           "artifacts/sample.csv" Sample.raw Sample.listings);
    try reflexivity.
  - cbn. repeat constructor.
  - cbn. repeat constructor.
Defined.

(** An output name with a version suffix is rejected when the artifact is
    made: the run raises after the file is written, nothing is registered
    and the file stays. *)
Lemma rejected_name_leaves_file :
  let B := Sample.service Sample.listings true true in
  let w1 := with_file "artifacts/sample.csv" Sample.raw Sample.start in
  let w2 := with_file "clean_sample.csv:v1" (file_of B Sample.cleaned) w1 in
  go_function B (Sample.versioned_args 10 100) Sample.start
  = (Raise (ValueError "clean_sample.csv:v1"), w2).
Proof. vm_compute. reflexivity. Qed.
